(** * Data-transformation agent: expression model, serializer and step tools

    A shallow embedding of [src/transformation_agent/classes.py],
    [src/transformation_agent/tools.py] and the routing functions of
    [src/transformation_agent/graph.py], and the properties of the
    specification settled against it.

    Python values that travel over the wire are modelled by [json]; Python
    dictionaries are association lists in insertion order (iteration order
    is observable in [change_response_data]); exceptions are values of
    [exn] carried by the error monad [Exc]; the HTTP backend is a pair of
    reply functions and every request a tool issues is logged. *)

From Stdlib Require Import String ZArith List Bool Lia.
From Stdlib Require Import DecimalString.
Import ListNotations.
Local Open Scope string_scope.
Local Open Scope Z_scope.

(* ===================================================================== *)
(** ** Python values *)
(* ===================================================================== *)

Unset Elimination Schemes.

(** What [response.json()] returns and what [model_dump] produces.  Floats
    are left out: no property below depends on one. *)
Inductive json : Type :=
| JNull
| JBool (b : bool)
| JInt (n : Z)
| JStr (s : string)
| JList (l : list json)
| JDict (d : list (string * json)).

Set Elimination Schemes.

(** Induction over [json] that reaches the members of lists and the values
    of dictionaries. *)
Definition json_ind (P : json -> Prop)
  (Hnull : P JNull)
  (Hbool : forall b, P (JBool b))
  (Hint : forall n, P (JInt n))
  (Hstr : forall s, P (JStr s))
  (Hlist : forall l, Forall P l -> P (JList l))
  (Hdict : forall d, Forall (fun kv => P (snd kv)) d -> P (JDict d)) :
  forall j, P j :=
  fix IH (j : json) : P j :=
    match j with
    | JNull => Hnull
    | JBool b => Hbool b
    | JInt n => Hint n
    | JStr s => Hstr s
    | JList l =>
        Hlist l ((fix members (l : list json) : Forall P l :=
                    match l with
                    | [] => Forall_nil P
                    | x :: r => Forall_cons x (IH x) (members r)
                    end) l)
    | JDict d =>
        Hdict d ((fix entries (d : list (string * json))
                    : Forall (fun kv => P (snd kv)) d :=
                    match d with
                    | [] => Forall_nil _
                    | kv :: r =>
                        @Forall_cons _ (fun kv => P (snd kv)) kv r
                          (IH (snd kv)) (entries r)
                    end) d)
    end.

(** Exceptions the modelled code can meet.  [ValueError] carries the
    message the repository gives it; [ValidationError] is pydantic's;
    [RequestError] stands for whatever [requests] or [response.json()]
    raises. *)
Inductive exn : Type :=
| KeyError (key : json)
| IndexError
| TypeError
| AttributeError
| ValueError (msg : string)
| ValidationError
| RequestError (msg : string).

(** The error monad: a computation returns a value or raises. *)
Inductive Exc (A : Type) : Type :=
| Ok (a : A)
| Raise (e : exn).

Arguments Ok {A} a.
Arguments Raise {A} e.

Definition bindE {A B} (m : Exc A) (k : A -> Exc B) : Exc B :=
  match m with
  | Ok a => k a
  | Raise e => Raise e
  end.

Declare Scope exc_scope.
Delimit Scope exc_scope with exc.
Notation "x <- m ;; k" := (bindE m (fun x => k))
  (at level 61, m at next level, right associativity) : exc_scope.

Definition is_ok {A} (m : Exc A) : bool :=
  match m with Ok _ => true | Raise _ => false end.

(* --------------------------------------------------------------------- *)
(** *** Dictionaries *)
(* --------------------------------------------------------------------- *)

Section Assoc.
Context {K V : Type} (eqb : K -> K -> bool).

(** [d.get(k)] / [k in d]. *)
Fixpoint assoc_get (k : K) (d : list (K * V)) : option V :=
  match d with
  | [] => None
  | (k', v) :: r => if eqb k' k then Some v else assoc_get k r
  end.

Definition assoc_mem (k : K) (d : list (K * V)) : bool :=
  match assoc_get k d with Some _ => true | None => false end.

(** [d[k] = v]: an existing key keeps its place (and its first-inserted
    key object), a new key goes last. *)
Fixpoint assoc_set (k : K) (v : V) (d : list (K * V)) : list (K * V) :=
  match d with
  | [] => [(k, v)]
  | (k', v') :: r =>
      if eqb k' k then (k', v) :: r else (k', v') :: assoc_set k v r
  end.

(** [del d[k]] on a dictionary that has the key. *)
Fixpoint assoc_remove (k : K) (d : list (K * V)) : list (K * V) :=
  match d with
  | [] => []
  | (k', v') :: r =>
      if eqb k' k then r else (k', v') :: assoc_remove k r
  end.
End Assoc.

Definition dict := list (string * json).

Definition dict_get (k : string) (d : dict) : option json :=
  assoc_get String.eqb k d.
Definition dict_mem (k : string) (d : dict) : bool :=
  assoc_mem String.eqb k d.
Definition dict_set (k : string) (v : json) (d : dict) : dict :=
  assoc_set String.eqb k v d.

(** [x[k]] for a string key: [KeyError] on a dictionary without the key,
    [TypeError] on anything that is not a dictionary. *)
Definition getitem (x : json) (k : string) : Exc json :=
  match x with
  | JDict d =>
      match dict_get k d with
      | Some v => Ok v
      | None => Raise (KeyError (JStr k))
      end
  | _ => Raise TypeError
  end.

(** [x[k] = v]. *)
Definition setitem (x : json) (k : string) (v : json) : Exc json :=
  match x with
  | JDict d => Ok (JDict (dict_set k v d))
  | _ => Raise TypeError
  end.

(** [del x[k]]. *)
Definition delitem (x : json) (k : string) : Exc json :=
  match x with
  | JDict d =>
      if dict_mem k d then Ok (JDict (assoc_remove String.eqb k d))
      else Raise (KeyError (JStr k))
  | _ => Raise TypeError
  end.

(** [len(x)]. *)
Definition py_len (x : json) : Exc Z :=
  match x with
  | JList l => Ok (Z.of_nat (List.length l))
  | JDict d => Ok (Z.of_nat (List.length d))
  | JStr s => Ok (Z.of_nat (String.length s))
  | _ => Raise TypeError
  end.

(** Truth value of [x] in a condition. *)
Definition truthy (x : json) : bool :=
  match x with
  | JNull => false
  | JBool b => b
  | JInt n => negb (n =? 0)
  | JStr s => negb (String.eqb s "")
  | JList l => match l with [] => false | _ => true end
  | JDict d => match d with [] => false | _ => true end
  end.

(** Only scalars can be dictionary keys. *)
Definition hashable (x : json) : bool :=
  match x with
  | JList _ | JDict _ => false
  | _ => true
  end.

(** Equality of dictionary keys: Python compares [True] with [1] and
    [False] with [0] as equal. *)
Definition key_eqb (x y : json) : bool :=
  match x, y with
  | JNull, JNull => true
  | JBool a, JBool b => Bool.eqb a b
  | JBool a, JInt n | JInt n, JBool a => n =? (if a then 1 else 0)
  | JInt n, JInt m => n =? m
  | JStr s, JStr t => String.eqb s t
  | _, _ => false
  end.

Definition string_of_Z (n : Z) : string :=
  NilZero.string_of_int (Z.to_int n).

(* ===================================================================== *)
(** ** classes.py: the expression model *)
(* ===================================================================== *)

(** [Union[str, int, float, bool]] (without the float alternative). *)
Inductive scalar : Type :=
| SStr (s : string)
| SInt (n : Z)
| SBool (b : bool).

(** [class ComparisonValue]; [ReplaceResultValue] adds nothing to it. *)
Record ComparisonValue : Type := {
  cv_input : option scalar;
  cv_datetime : option string;
  cv_column_name : option string
}.

Definition ReplaceResultValue : Type := ComparisonValue.

(** The twelve literals of [Condition.operator]. *)
Inductive Operator : Type :=
| equal_to | not_equal_to | greater_than | less_than
| greater_than_or_equal_to | less_than_or_equal_to
| contains | does_not_contain | starts_with | does_not_start_with
| ends_with | does_not_end_with.

Definition operators : list Operator :=
  [equal_to; not_equal_to; greater_than; less_than;
   greater_than_or_equal_to; less_than_or_equal_to;
   contains; does_not_contain; starts_with; does_not_start_with;
   ends_with; does_not_end_with].

Definition operator_literal (op : Operator) : string :=
  match op with
  | equal_to => "equal to"
  | not_equal_to => "not equal to"
  | greater_than => "greater than"
  | less_than => "less than"
  | greater_than_or_equal_to => "greater than or equal to"
  | less_than_or_equal_to => "less than or equal to"
  | contains => "contains"
  | does_not_contain => "does not contain"
  | starts_with => "starts with"
  | does_not_start_with => "does not start with"
  | ends_with => "ends with"
  | does_not_end_with => "does not end with"
  end.

(** [class Condition]. *)
Record Condition : Type := {
  column_name : string;
  operator : Operator;
  comparison_value : ComparisonValue
}.

(** [Literal["length"]]. *)
Inductive Function : Type := Length.

(** [class ReplaceCondition(Condition)]: the inherited fields and
    [function]. *)
Record ReplaceCondition : Type := {
  rc_condition : Condition;
  function : option Function
}.

(** [class LogicalExpression] and its subclass share the two branch
    fields, [validate_structure] and [__init__]; they differ in the leaf
    class of the union ([Cond]) and in the fields the subclass adds
    ([Extra]: nothing for the base class, [result_value] for
    [ReplaceLogicalExpression]).  A member of a branch is
    [Union[<this class>, <leaf class>]], a sum. *)
Section Expression.
Variables Cond Extra : Type.

Unset Elimination Schemes.
Inductive Expression : Type :=
| Build_Expression
    (and_ : option (list (Expression + Cond)))
    (or_ : option (list (Expression + Cond)))
    (extra : Extra).
Set Elimination Schemes.

Definition Member : Type := (Expression + Cond)%type.

Definition and_ (self : Expression) : option (list Member) :=
  match self with Build_Expression a _ _ => a end.
Definition or_ (self : Expression) : option (list Member) :=
  match self with Build_Expression _ o _ => o end.
Definition extra (self : Expression) : Extra :=
  match self with Build_Expression _ _ x => x end.

(** [not branch]: [None] and the empty list are both false. *)
Definition py_not (branch : option (list Member)) : bool :=
  match branch with
  | None | Some [] => true
  | Some (_ :: _) => false
  end.

(** [validate_structure]. *)
Definition validate_structure (self : Expression) : Exc unit :=
  if py_not (and_ self) && py_not (or_ self)
  then Raise (ValueError
         "Either 'and' or 'or' must be present in LogicalExpression.")
  else Ok tt.

(** [__init__] on field values that already have their types:
    [super().__init__] stores them, [validate_structure] follows. *)
Definition init (and_ or_ : option (list Member)) (extra : Extra)
  : Exc Expression :=
  let self := Build_Expression and_ or_ extra in
  (_ <- validate_structure self ;; Ok self)%exc.

(** [model_dump(by_alias=True, exclude_none=False)]: every field is
    written, a [None] as null, the branches under their aliases. *)
Variable dump_Cond : Cond -> json.
Variable dump_Extra : Extra -> dict.

Fixpoint dump_Expression (self : Expression) : json :=
  let dump_branch (branch : option (list Member)) : json :=
    match branch with
    | None => JNull
    | Some members =>
        JList (map (fun m : Member =>
                      match m with
                      | inl e => dump_Expression e
                      | inr c => dump_Cond c
                      end) members)
    end in
  match self with
  | Build_Expression a o x =>
      JDict ([("and", dump_branch a); ("or", dump_branch o)]
             ++ dump_Extra x)
  end.

(** The dump of one member of a branch. *)
Definition dump_member (m : Member) : json :=
  match m with
  | inl e => dump_Expression e
  | inr c => dump_Cond c
  end.
End Expression.

Arguments Build_Expression {Cond Extra} and_ or_ extra.
Arguments and_ {Cond Extra} self.
Arguments or_ {Cond Extra} self.
Arguments extra {Cond Extra} self.
Arguments py_not {Cond Extra} branch.
Arguments validate_structure {Cond Extra} self.
Arguments init {Cond Extra} and_ or_ extra.
Arguments dump_Expression {Cond Extra} dump_Cond dump_Extra self.
Arguments dump_member {Cond Extra} dump_Cond dump_Extra m.

(** Induction over an expression that reaches the expressions among the
    members of its branches. *)
Section ExpressionInduction.
Context {Cond Extra : Type}.
Variable P : Expression Cond Extra -> Prop.

Definition members_all (ms : list (Member Cond Extra)) : Prop :=
  Forall (fun m => match m with
                   | inl e => P e
                   | inr _ => True
                   end) ms.

Definition branch_all (b : option (list (Member Cond Extra))) : Prop :=
  match b with
  | None => True
  | Some ms => members_all ms
  end.

Hypothesis step :
  forall a o x, branch_all a -> branch_all o -> P (Build_Expression a o x).

Fixpoint Expression_ind (e : Expression Cond Extra) : P e :=
  let members :=
    fix members (ms : list (Member Cond Extra)) : members_all ms :=
      match ms return members_all ms with
      | [] => Forall_nil _
      | m :: r =>
          Forall_cons m
            (match m return match m with
                            | inl e => P e
                            | inr _ => True
                            end with
             | inl e' => Expression_ind e'
             | inr _ => I
             end)
            (members r)
      end in
  let branch (b : option (list (Member Cond Extra))) : branch_all b :=
    match b return branch_all b with
    | None => I
    | Some ms => members ms
    end in
  match e with
  | Build_Expression a o x => step a o x (branch a) (branch o)
  end.
End ExpressionInduction.

Definition LogicalExpression : Type := Expression Condition unit.
Definition ReplaceLogicalExpression : Type :=
  Expression ReplaceCondition ReplaceResultValue.

(** [class FilterAction]. *)
Record FilterAction : Type := {
  filter_expression : LogicalExpression
}.

(** [class ReplaceExpression]. *)
Record ReplaceExpression : Type := {
  else_ : ReplaceResultValue;
  when : list ReplaceLogicalExpression
}.

(** [class ReplaceAction]. *)
Record ReplaceAction : Type := {
  replace_expression : ReplaceExpression;
  replace_column : string
}.

(* --------------------------------------------------------------------- *)
(** *** model_dump *)
(* --------------------------------------------------------------------- *)

Definition dump_option {A} (f : A -> json) (o : option A) : json :=
  match o with
  | None => JNull
  | Some a => f a
  end.

Definition dump_scalar (v : scalar) : json :=
  match v with
  | SStr s => JStr s
  | SInt n => JInt n
  | SBool b => JBool b
  end.

Definition dump_ComparisonValue (cv : ComparisonValue) : json :=
  JDict [("input", dump_option dump_scalar (cv_input cv));
         ("datetime", dump_option JStr (cv_datetime cv));
         ("column_name", dump_option JStr (cv_column_name cv))].

Definition Condition_fields (c : Condition) : dict :=
  [("column_name", JStr (column_name c));
   ("operator", JStr (operator_literal (operator c)));
   ("comparison_value", dump_ComparisonValue (comparison_value c))].

Definition dump_Condition (c : Condition) : json :=
  JDict (Condition_fields c).

Definition dump_ReplaceCondition (c : ReplaceCondition) : json :=
  JDict (Condition_fields (rc_condition c)
         ++ [("function",
              dump_option (fun _ : Function => JStr "length") (function c))]).

Definition dump_LogicalExpression : LogicalExpression -> json :=
  dump_Expression dump_Condition (fun _ : unit => []).

Definition dump_ReplaceLogicalExpression : ReplaceLogicalExpression -> json :=
  dump_Expression dump_ReplaceCondition
    (fun rv => [("result_value", dump_ComparisonValue rv)]).

Definition dump_FilterAction (a : FilterAction) : json :=
  JDict [("expression", dump_LogicalExpression (filter_expression a))].

(** [else_] has no alias (the alias is commented out in the source), so
    it is dumped under its field name. *)
Definition dump_ReplaceExpression (e : ReplaceExpression) : json :=
  JDict [("else_", dump_ComparisonValue (else_ e));
         ("when", JList (map dump_ReplaceLogicalExpression (when e)))].

Definition dump_ReplaceAction (a : ReplaceAction) : json :=
  JDict [("expression", dump_ReplaceExpression (replace_expression a));
         ("replace_column", JStr (replace_column a))].

(* --------------------------------------------------------------------- *)
(** *** Validation of wire objects into the model *)
(* --------------------------------------------------------------------- *)

Local Open Scope exc_scope.

(** What pydantic does with a dictionary handed to one of the classes
    above: a field is looked up under its alias (and, with
    [populate_by_name], under its name), a missing optional field is
    [None], keys that name no field are ignored, and a value of the wrong
    type is a [ValidationError]. *)

(** The value under key [k] passed to [found], or [missing]. *)
Definition find_field {A} (found : json -> A) (missing : A) (k : string)
    : dict -> A :=
  fix go (d : dict) : A :=
    match d with
    | [] => missing
    | (k', v) :: r => if String.eqb k' k then found v else go r
    end.

Definition mapE {A B} (f : A -> Exc B) : list A -> Exc (list B) :=
  fix go (l : list A) : Exc (list B) :=
    match l with
    | [] => Ok []
    | x :: r => y <- f x ;; ys <- go r ;; Ok (y :: ys)
    end.

(** [Optional[str]]. *)
Definition parse_optional_str (v : json) : Exc (option string) :=
  match v with
  | JNull => Ok None
  | JStr s => Ok (Some s)
  | _ => Raise ValidationError
  end.

(** [Optional[Union[str, int, float, bool]]]: the union keeps the type
    the value already has. *)
Definition parse_optional_scalar (v : json) : Exc (option scalar) :=
  match v with
  | JNull => Ok None
  | JStr s => Ok (Some (SStr s))
  | JInt n => Ok (Some (SInt n))
  | JBool b => Ok (Some (SBool b))
  | _ => Raise ValidationError
  end.

Definition parse_ComparisonValue (v : json) : Exc ComparisonValue :=
  match v with
  | JDict d =>
      i <- find_field parse_optional_scalar (Ok None) "input" d ;;
      t <- find_field parse_optional_str (Ok None) "datetime" d ;;
      c <- find_field parse_optional_str (Ok None) "column_name" d ;;
      Ok {| cv_input := i; cv_datetime := t; cv_column_name := c |}
  | _ => Raise ValidationError
  end.

Definition parse_str (v : json) : Exc string :=
  match v with
  | JStr s => Ok s
  | _ => Raise ValidationError
  end.

Definition parse_Operator (v : json) : Exc Operator :=
  match v with
  | JStr s =>
      match find (fun op => String.eqb (operator_literal op) s) operators with
      | Some op => Ok op
      | None => Raise ValidationError
      end
  | _ => Raise ValidationError
  end.

Definition parse_Condition_fields (d : dict) : Exc Condition :=
  n <- find_field parse_str (Raise ValidationError) "column_name" d ;;
  op <- find_field parse_Operator (Raise ValidationError) "operator" d ;;
  cv <- find_field parse_ComparisonValue (Raise ValidationError)
          "comparison_value" d ;;
  Ok {| column_name := n; operator := op; comparison_value := cv |}.

Definition parse_Condition (v : json) : Exc Condition :=
  match v with
  | JDict d => parse_Condition_fields d
  | _ => Raise ValidationError
  end.

(** [Union[None, Literal["length"]]]. *)
Definition parse_Function (v : json) : Exc (option Function) :=
  match v with
  | JNull => Ok None
  | JStr s => if String.eqb s "length" then Ok (Some Length)
              else Raise ValidationError
  | _ => Raise ValidationError
  end.

Definition parse_ReplaceCondition (v : json) : Exc ReplaceCondition :=
  match v with
  | JDict d =>
      c <- parse_Condition_fields d ;;
      f <- find_field parse_Function (Ok None) "function" d ;;
      Ok {| rc_condition := c; function := f |}
  | _ => Raise ValidationError
  end.

Section Validation.
Variables Cond Extra : Type.
Variable parse_Cond : json -> Exc Cond.
Variable parse_Extra : dict -> Exc Extra.

(** Construction of the class from a wire object, members included: the
    fields are validated ([super().__init__]), then [validate_structure]
    runs, at every nested expression as well since the class has its own
    [__init__].  A member is tried as an expression first and as a leaf
    when that fails; pydantic's union agrees with this order whenever at
    most one of the two classes accepts the object, which is the case of
    every object that has either branch keys or leaf keys but not
    both. *)
Fixpoint parse_Expression (v : json) : Exc (Expression Cond Extra) :=
  let parse_member (m : json) : Exc (Member Cond Extra) :=
    match parse_Expression m with
    | Ok e => Ok (inl e)
    | Raise _ =>
        match parse_Cond m with
        | Ok c => Ok (inr c)
        | Raise _ => Raise ValidationError
        end
    end in
  let parse_branch (b : json) : Exc (option (list (Member Cond Extra))) :=
    match b with
    | JNull => Ok None
    | JList members => ms <- mapE parse_member members ;; Ok (Some ms)
    | _ => Raise ValidationError
    end in
  match v with
  | JDict d =>
      a <- find_field parse_branch
             (find_field parse_branch (Ok None) "and_" d) "and" d ;;
      o <- find_field parse_branch
             (find_field parse_branch (Ok None) "or_" d) "or" d ;;
      x <- parse_Extra d ;;
      init a o x
  | _ => Raise ValidationError
  end.

(** The two local functions of [parse_Expression], by name. *)
Definition parse_member (m : json) : Exc (Member Cond Extra) :=
  match parse_Expression m with
  | Ok e => Ok (inl e)
  | Raise _ =>
      match parse_Cond m with
      | Ok c => Ok (inr c)
      | Raise _ => Raise ValidationError
      end
  end.

Definition parse_branch (b : json)
    : Exc (option (list (Member Cond Extra))) :=
  match b with
  | JNull => Ok None
  | JList members => ms <- mapE parse_member members ;; Ok (Some ms)
  | _ => Raise ValidationError
  end.
End Validation.

Arguments parse_Expression {Cond Extra} parse_Cond parse_Extra v.
Arguments parse_member {Cond Extra} parse_Cond parse_Extra m.
Arguments parse_branch {Cond Extra} parse_Cond parse_Extra b.

Definition parse_LogicalExpression : json -> Exc LogicalExpression :=
  parse_Expression parse_Condition (fun _ => Ok tt).

Definition parse_ReplaceLogicalExpression
    : json -> Exc ReplaceLogicalExpression :=
  parse_Expression parse_ReplaceCondition
    (find_field parse_ComparisonValue (Raise ValidationError) "result_value").



(* ===================================================================== *)
(** ** tools.py: the canonicalizing serializer *)
(* ===================================================================== *)

(** The step object of [add_filter_action_tool], from [FilterAction(...)]
    up to the [action] tag. *)
Definition filter_step (expression : LogicalExpression) : Exc json :=
  let filter_obj := {| filter_expression := expression |} in
  let filter_data := dump_FilterAction filter_obj in
  e <- getitem filter_data "expression" ;;
  a <- getitem e "and" ;;
  e <- match a with
       | JNull => delitem e "and"
       | _ => delitem e "or"
       end ;;
  filter_data <- setitem filter_data "expression" e ;;
  setitem filter_data "action" (JStr "filter").

(** The loop over [replace_data["expression"]["when"]]: each entry loses
    its null branch key. *)
Fixpoint strip_when (entries : list json) : Exc (list json) :=
  match entries with
  | [] => Ok []
  | when_condition :: rest =>
      a <- getitem when_condition "and" ;;
      when_condition <- match a with
                        | JNull => delitem when_condition "and"
                        | _ => delitem when_condition "or"
                        end ;;
      rest <- strip_when rest ;;
      Ok (when_condition :: rest)
  end.

(** Iterating a value with [for]: a list yields its members, a dictionary
    its keys, a string its characters. *)
Fixpoint characters (s : string) : list json :=
  match s with
  | EmptyString => []
  | String c r => JStr (String c EmptyString) :: characters r
  end.

Definition iterate (x : json) : Exc (list json) :=
  match x with
  | JList l => Ok l
  | JDict d => Ok (map (fun kv => JStr (fst kv)) d)
  | JStr s => Ok (characters s)
  | _ => Raise TypeError
  end.

(** [for when_condition in w: ...]: the entries of a list are changed in
    place; anything else that can be iterated yields strings, on which the
    body raises. *)
Definition for_each_when (w : json) : Exc json :=
  match w with
  | JList entries => entries <- strip_when entries ;; Ok (JList entries)
  | _ => entries <- iterate w ;; _ <- strip_when entries ;; Ok w
  end.

(** The step object of [add_replace_action_tool], from [ReplaceAction(...)]
    up to the [action] tag.  The nested dictionaries are shared objects in
    the source; here each change is written back to its parent. *)
Definition replace_step (expression : ReplaceExpression)
    (replace_column : string) : Exc json :=
  let replace_obj := {| replace_expression := expression;
                        replace_column := replace_column |} in
  let replace_data := dump_ReplaceAction replace_obj in
  e <- getitem replace_data "expression" ;;
  v <- getitem e "else_" ;;
  e <- setitem e "else" v ;;
  e <- delitem e "else_" ;;
  e <- setitem e "replace_column" (JStr replace_column) ;;
  replace_data <- setitem replace_data "expression" e ;;
  replace_data <- delitem replace_data "replace_column" ;;
  w <- getitem e "when" ;;
  w <- for_each_when w ;;
  e <- setitem e "when" w ;;
  replace_data <- setitem replace_data "expression" e ;;
  setitem replace_data "action" (JStr "replace").

(* ===================================================================== *)
(** ** tools.py: the response pivot *)
(* ===================================================================== *)

(** The dictionary [change_response_data] returns: [error] is [None] when
    the key is not set. *)
Record transformation_data_with_steps : Type := {
  data : list (json * list json);
  steps : json;
  error : option string
}.

Definition columns : Type := list (json * list json).

(** [x[0]]. *)
Definition first_item (x : json) : Exc json :=
  match x with
  | JList (r :: _) => Ok r
  | JList [] => Raise IndexError
  | JStr (String c _) => Ok (JStr (String c EmptyString))
  | JStr EmptyString => Raise IndexError
  | JDict _ => Raise (KeyError (JInt 0))
  | _ => Raise TypeError
  end.

(** [x[-1]]. *)
Definition last_item (x : json) : Exc json :=
  match x with
  | JList [] => Raise IndexError
  | JList (r :: l) => Ok (last l r)
  | JStr s =>
      match rev (characters s) with
      | c :: _ => Ok c
      | [] => Raise IndexError
      end
  | JDict _ => Raise (KeyError (JInt (-1)))
  | _ => Raise TypeError
  end.

(** [x.values()] and [x.items()]. *)
Definition py_values (x : json) : Exc (list json) :=
  match x with
  | JDict d => Ok (map snd d)
  | _ => Raise AttributeError
  end.

Definition py_items (x : json) : Exc dict :=
  match x with
  | JDict d => Ok d
  | _ => Raise AttributeError
  end.

(** [for column in column_row.values(): altered[column] = []]. *)
Fixpoint init_columns (cols : list json) (altered : columns) : Exc columns :=
  match cols with
  | [] => Ok altered
  | column :: rest =>
      if hashable column
      then init_columns rest (assoc_set key_eqb column [] altered)
      else Raise TypeError
  end.

(** [altered[name].append(value)]. *)
Definition append_value (name value : json) (altered : columns)
    : Exc columns :=
  if hashable name then
    match assoc_get key_eqb name altered with
    | Some values => Ok (assoc_set key_eqb name (values ++ [value])%list altered)
    | None => Raise (KeyError name)
    end
  else Raise TypeError.

(** [for key, value in row.items():
       altered[column_row[key]].append(value)]. *)
Fixpoint append_row (column_row : json) (items : dict) (altered : columns)
    : Exc columns :=
  match items with
  | [] => Ok altered
  | (key, value) :: rest =>
      name <- getitem column_row key ;;
      altered <- append_value name value altered ;;
      append_row column_row rest altered
  end.

(** The loop over the rows, with its counter and its [break]. *)
Fixpoint pivot_rows (column_row : json) (rows : list json) (index : Z)
    (altered : columns) : Exc columns :=
  match rows with
  | [] => Ok altered
  | row :: rest =>
      items <- py_items row ;;
      altered <- append_row column_row items altered ;;
      let index := index + 1 in
      if index >? 2 then Ok altered
      else pivot_rows column_row rest index altered
  end.

(** The pivot of [response_data["data"]] (lines 104-117). *)
Definition pivot (transformation_data : json) : Exc columns :=
  n <- py_len transformation_data ;;
  if negb (n =? 0) then
    column_row <- first_item transformation_data ;;
    cols <- py_values column_row ;;
    altered <- init_columns cols [] ;;
    rows <- iterate transformation_data ;;
    pivot_rows column_row rows 0 altered
  else Ok [].

Section Tools.
(** [repr] of a list or a dictionary, and [str] of an exception: the
    interpreter's renderings, not the repository's. *)
Variable py_repr : json -> string.
Variable exn_str : exn -> string.

(** [str(x)], as an f-string applies it. *)
Definition py_str (x : json) : string :=
  match x with
  | JNull => "None"
  | JBool true => "True"
  | JBool false => "False"
  | JInt n => string_of_Z n
  | JStr s => s
  | _ => py_repr x
  end.

Definition change_response_data (response_data : json)
    (check_last_step_for_error : bool)
    : Exc transformation_data_with_steps :=
  transformation_data <- getitem response_data "data" ;;
  altered_transformed_data <- pivot transformation_data ;;
  steps <- getitem response_data "steps" ;;
  let transformation_data_with_steps :=
    {| data := altered_transformed_data; steps := steps; error := None |} in
  if check_last_step_for_error then
    n <- py_len steps ;;
    if n >? 0 then
      last_step <- last_item steps ;;
      err <- getitem last_step "error" ;;
      if truthy err then
        Ok {| data := altered_transformed_data;
              steps := steps;
              error := Some ("Error in the last step: " ++ py_str err) |}
      else Ok transformation_data_with_steps
    else Ok transformation_data_with_steps
  else Ok transformation_data_with_steps.

(* ------------------------------------------------------------------- *)
(** *** The backend and the four tools *)
(* ------------------------------------------------------------------- *)

(** What [requests.get] / [requests.put] hand back: a status code and
    the outcome of [response.json()].  The call itself may raise. *)
Record Response : Type := {
  status_code : Z;
  response_json : Exc json
}.

(** The one remote resource ([BASE_URL], [TRANSFORMATION_ID]): its answer
    to a GET and its answer to a PUT with a given body. *)
Record Backend : Type := {
  on_get : Exc Response;
  on_put : json -> Exc Response
}.

Inductive request : Type :=
| GET
| PUT (body : json).

(** A tool computation: it may raise, and it extends the log of the
    requests sent so far. *)
Definition Tool (A : Type) : Type := list request -> Exc A * list request.

Definition ret {A} (a : A) : Tool A := fun log => (Ok a, log).

Definition raise {A} (e : exn) : Tool A := fun log => (Raise e, log).

Definition bindT {A B} (m : Tool A) (k : A -> Tool B) : Tool B :=
  fun log =>
    match m log with
    | (Ok a, log') => k a log'
    | (Raise e, log') => (Raise e, log')
    end.

Definition lift {A} (m : Exc A) : Tool A := fun log => (m, log).

(** [try: m except Exception as e: handler e]. *)
Definition try_except {A} (m : Tool A) (handler : exn -> Tool A) : Tool A :=
  fun log =>
    match m log with
    | (Ok a, log') => (Ok a, log')
    | (Raise e, log') => handler e log'
    end.

Variable backend : Backend.

Definition requests_get : Tool Response :=
  fun log => (on_get backend, (log ++ [GET])%list).

Definition requests_put (body : json) : Tool Response :=
  fun log => (on_put backend body, (log ++ [PUT body])%list).

(** A tool returns the pivoted response or a message. *)
Inductive tool_result : Type :=
| Data (d : transformation_data_with_steps)
| Message (s : string).

Declare Scope tool_scope.
Delimit Scope tool_scope with tool.
Notation "x <- m ;; k" := (bindT m (fun x => k))
  (at level 61, m at next level, right associativity) : tool_scope.
Local Open Scope tool_scope.

(** The handler re-raises: the [return] after [raise e] is never
    reached. *)
Definition get_transformation_data : Tool tool_result :=
  try_except
    (response <- requests_get ;;
     if status_code response =? 200 then
       response_data <- lift (response_json response) ;;
       d <- lift (change_response_data response_data false) ;;
       ret (Data d)
     else ret (Message "Failed to get transformation data for some reason"))
    (fun e => raise e).

(** [get_transformation_data.invoke(input=None)["steps"]]: a message has
    no string index. *)
Definition steps_of (r : tool_result) : Exc json :=
  match r with
  | Data d => Ok (steps d)
  | Message _ => Raise TypeError
  end.

(** [x.pop()] with no argument. *)
Definition pop (x : json) : Exc json :=
  match x with
  | JList [] => Raise IndexError
  | JList l => Ok (JList (removelast l))
  | JDict _ => Raise TypeError
  | _ => Raise AttributeError
  end.

(** [for _ in range(k): x.pop()]. *)
Fixpoint pop_times (k : nat) (x : json) : Exc json :=
  match k with
  | O => Ok x
  | S k' => bindE (pop x) (pop_times k')
  end.

(** [x.append(v)]. *)
Definition append (x v : json) : Exc json :=
  match x with
  | JList l => Ok (JList (l ++ [v]))
  | _ => Raise AttributeError
  end.

(** The PUT of the step list and the reading of its answer, shared by
    the three mutating tools up to the failure text. *)
Definition put_steps (transformation_steps : json) (failure : string)
    : Tool tool_result :=
  let put_request_data := JDict [("steps", transformation_steps)] in
  response <- requests_put put_request_data ;;
  if status_code response =? 201 then
    response_data <- lift (response_json response) ;;
    d <- lift (change_response_data response_data true) ;;
    ret (Data d)
  else ret (Message (failure ++ string_of_Z (status_code response))).

Definition remove_last_step (number_of_steps : Z) : Tool tool_result :=
  try_except
    (r <- get_transformation_data ;;
     transformation_steps <- lift (steps_of r) ;;
     n <- lift (py_len transformation_steps) ;;
     let number_of_steps :=
       if n >? number_of_steps then n else number_of_steps in
     transformation_steps <-
       lift (pop_times (Z.to_nat number_of_steps) transformation_steps) ;;
     put_steps transformation_steps "Failed to remove the last step: ")
    (fun e => ret (Message ("Failed to remove the last step: " ++ exn_str e))).

Definition add_filter_action_tool (expression : LogicalExpression)
    : Tool tool_result :=
  try_except
    (filter_data <- lift (filter_step expression) ;;
     r <- get_transformation_data ;;
     transformation_steps <- lift (steps_of r) ;;
     transformation_steps <- lift (append transformation_steps filter_data) ;;
     put_steps transformation_steps
       "Failed to get transformation data for some reason: ")
    (fun e => ret (Message ("Failed to add data: " ++ exn_str e))).

(** As in [get_transformation_data], the handler re-raises. *)
Definition add_replace_action_tool (expression : ReplaceExpression)
    (replace_column : string) : Tool tool_result :=
  try_except
    (replace_data <- lift (replace_step expression replace_column) ;;
     r <- get_transformation_data ;;
     transformation_steps <- lift (steps_of r) ;;
     transformation_steps <- lift (append transformation_steps replace_data) ;;
     put_steps transformation_steps
       "Failed to get transformation data for some reason: ")
    (fun e => raise e).
End Tools.

(* ===================================================================== *)
(** ** graph.py: routing and the final answer *)
(* ===================================================================== *)

(** An entry of [tool_calls]: the dictionary with [name], [args], [id]
    the framework builds for every call the model asks for. *)
Record ToolCall : Type := {
  tc_name : string;
  tc_args : json;
  tc_id : json
}.

(** A message of the conversation.  Only the model's messages have a
    [tool_calls] attribute. *)
Inductive BaseMessage : Type :=
| AIMessage (content : string) (tool_calls : list ToolCall)
| OtherMessage (content : string).

(** [message.tool_calls]. *)
Definition tool_calls_of (m : BaseMessage) : Exc (list ToolCall) :=
  match m with
  | AIMessage _ calls => Ok calls
  | OtherMessage _ => Raise AttributeError
  end.

(** [messages[-1]]. *)
Definition last_message (messages : list BaseMessage) : Exc BaseMessage :=
  match messages with
  | [] => Raise IndexError
  | m :: r => Ok (last r m)
  end.

(** [class StructuredOutputResponse]. *)
Record StructuredOutputResponse : Type := {
  answer : string
}.

(** [StructuredOutputResponse] built from the unpacked [args]: they must
    be a dictionary, [answer] is required and a string, other keys are
    ignored. *)
Definition parse_StructuredOutputResponse (args : json)
    : Exc StructuredOutputResponse :=
  match args with
  | JDict d =>
      a <- find_field parse_str (Raise ValidationError) "answer" d ;;
      Ok {| answer := a |}
  | _ => Raise TypeError
  end.

(** [should_continue]: the name of the edge to follow. *)
Definition should_continue (messages : list BaseMessage) : Exc string :=
  last_message <- last_message messages ;;
  calls <- tool_calls_of last_message ;;
  match calls with
  | [call] =>
      if String.eqb (tc_name call) "StructuredOutputResponse"
      then Ok "respond"
      else Ok "continue"
  | _ => Ok "continue"
  end.

(** What [respond] returns: the two keys of its dictionary. *)
Record Respond : Type := {
  final_response : StructuredOutputResponse;
  messages : list json
}.

(** [respond]. *)
Definition respond (state_messages : list BaseMessage) : Exc Respond :=
  last_message <- last_message state_messages ;;
  calls <- tool_calls_of last_message ;;
  match calls with
  | [] => Raise IndexError
  | answer_tool_call :: _ =>
      response <- parse_StructuredOutputResponse (tc_args answer_tool_call) ;;
      let tool_message :=
        JDict [("type", JStr "tool");
               ("content", JStr "Here is your structured response");
               ("tool_call_id", tc_id answer_tool_call)] in
      Ok {| final_response := response; messages := [tool_message] |}
  end.

(* ===================================================================== *)
(** ** Vocabulary of the properties *)
(* ===================================================================== *)

(** Every node of the expression passes [validate_structure]. *)
Fixpoint valid_everywhere {Cond Extra} (e : Expression Cond Extra) : bool :=
  let members_ok (b : option (list (Member Cond Extra))) : bool :=
    match b with
    | None => true
    | Some ms =>
        forallb (fun m => match m with
                          | inl e' => valid_everywhere e'
                          | inr _ => true
                          end) ms
    end in
  match e with
  | Build_Expression a o _ =>
      negb (py_not a && py_not o) && members_ok a && members_ok o
  end.

(** No member of either branch is an expression. *)
Definition flat {Cond Extra} (e : Expression Cond Extra) : bool :=
  let leaves (b : option (list (Member Cond Extra))) : bool :=
    match b with
    | None => true
    | Some ms => forallb (fun m => match m with
                                   | inl _ => false
                                   | inr _ => true
                                   end) ms
    end in
  leaves (and_ e) && leaves (or_ e).

(** Some dictionary inside [j], at any depth, holds both an [and] key and
    an [or] key. *)
Fixpoint has_and_or (j : json) : bool :=
  match j with
  | JList l => existsb has_and_or l
  | JDict d =>
      (dict_mem "and" d && dict_mem "or" d)
      || existsb (fun kv => has_and_or (snd kv)) d
  | _ => false
  end.


(** A dumped [when] entry after the loop of the replace tool: the null
    branch key is gone (the [or] key when [and] is not null). *)
Definition stripped (e : ReplaceLogicalExpression) : json :=
  let dump_branch :=
    dump_option
      (fun ms =>
         JList (map (dump_member dump_ReplaceCondition
                       (fun rv => [("result_value", dump_ComparisonValue rv)]))
                  ms)) in
  match and_ e with
  | None =>
      JDict [("or", dump_branch (or_ e));
             ("result_value", dump_ComparisonValue (extra e))]
  | Some _ =>
      JDict [("and", dump_branch (and_ e));
             ("result_value", dump_ComparisonValue (extra e))]
  end.


(* --------------------------------------------------------------------- *)
(** *** Pivoted columns in closed form *)
(* --------------------------------------------------------------------- *)

(** The dictionary with keys [keys], in that order, and value [f k] at
    [k]. *)
Definition tabulate {V} (keys : list json) (f : json -> V) : list (json * V) :=
  map (fun k => (k, f k)) keys.

(** No two keys of the list are equal as dictionary keys, and each is
    hashable. *)
Fixpoint distinct_keys (keys : list json) : bool :=
  match keys with
  | [] => true
  | k :: r =>
      hashable k && forallb (fun k' => negb (key_eqb k k')) r && distinct_keys r
  end.

(** Some key of the list equals [k]. *)
Definition covers (keys : list json) (k : json) : bool :=
  existsb (fun k' => key_eqb k' k) keys.

(** The keys [init_columns] creates, in order: a column name that equals
    an earlier one creates no key. *)
Definition column_keys (cols : list json) (keys : list json) : list json :=
  fold_left (fun ks c => if covers ks c then ks else (ks ++ [c])%list)
    cols keys.

(** The values one row appends to the column of [name]: those of its
    items whose column id the first row maps to [name]. *)
Definition contributions (column_row : dict) (name : json) (items : dict)
    : list json :=
  flat_map (fun kv =>
              match dict_get (fst kv) column_row with
              | Some n => if key_eqb name n then [snd kv] else []
              | None => []
              end) items.

Definition items_of (row : json) : dict :=
  match row with
  | JDict items => items
  | _ => []
  end.

(** A row the pivot can place: a dictionary whose column ids all occur in
    the first row. *)
Definition row_ok (column_row : dict) (row : json) : bool :=
  match row with
  | JDict items => forallb (fun kv => dict_mem (fst kv) column_row) items
  | _ => false
  end.

(** A dictionary as Python has it: no key twice. *)
Fixpoint unique_keys (d : dict) : bool :=
  match d with
  | [] => true
  | (k, _) :: r => negb (dict_mem k r) && unique_keys r
  end.

(** The two dictionaries have the same keys. *)
Definition same_keys (d d' : dict) : bool :=
  forallb (fun kv => dict_mem (fst kv) d') d
  && forallb (fun kv => dict_mem (fst kv) d) d'.

(** The rows the loop reads before its [break]. *)
Definition sampled (rows : list json) : list json := firstn 3 rows.

(** The pivot in closed form: one column per distinct name of the first
    row, holding what the sampled rows contribute, row after row. *)
Definition pivoted (column_row : dict) (rows : list json) : columns :=
  tabulate (column_keys (map snd column_row) [])
    (fun name =>
       flat_map (fun row => contributions column_row name (items_of row))
         (sampled rows)).

(** The cell of a row under a column id ([None] when the row has none). *)
Definition cell (key : string) (row : json) : option json :=
  dict_get key (items_of row).

(** A row of a table under the first row: a dictionary, no column id
    twice, every column id one of the first row's. *)
Definition table_row (column_row : dict) (row : json) : bool :=
  row_ok column_row row && unique_keys (items_of row).

(** The first three rows of a table, transposed: one column per entry of
    the first row, holding the cells of its column id. *)
Definition transposed (column_row : dict) (rows : list json) : columns :=
  map (fun kv =>
         (snd kv,
          flat_map (fun row => match cell (fst kv) row with
                               | Some v => [v]
                               | None => []
                               end) (sampled rows)))
    column_row.

(* --------------------------------------------------------------------- *)
(** *** Wire objects and their comparison *)
(* --------------------------------------------------------------------- *)



Definition branch_key (k : string) : bool :=
  String.eqb k "and" || String.eqb k "or"
  || String.eqb k "and_" || String.eqb k "or_".





(** The reserved word a key is written as: [and_], [or_] and [else_] stand
    for [and], [or] and [else]; every other key is itself. *)
Definition reserved_word (k : string) : string :=
  if String.eqb k "and_" then "and"
  else if String.eqb k "or_" then "or"
  else if String.eqb k "else_" then "else"
  else k.

(** The value of the first entry whose key is written as [k]. *)
Fixpoint renamed_get (k : string) (d : dict) : option json :=
  match d with
  | [] => None
  | (k', v) :: r =>
      if String.eqb (reserved_word k') k then Some v else renamed_get k r
  end.

Definition is_null (j : json) : bool :=
  match j with
  | JNull => true
  | _ => false
  end.


Fixpoint forall2b {A B} (f : A -> B -> bool) (l : list A) (l' : list B)
    : bool :=
  match l, l' with
  | [], [] => true
  | x :: r, x' :: r' => f x x' && forall2b f r r'
  | _, _ => false
  end.

(** Two wire objects have the same logical shape: compared on the objects
    themselves, they are equal up to the order of the keys of a
    dictionary, up to keys whose value is null (a null key counts as an
    absent one), and up to the renaming of [reserved_word].  Scalars are
    compared by equality and lists member by member, in order: an entry
    of [j] has an entry of the same shape in [j'] unless it is null, and
    [j'] has no entry that [j] lacks unless it is null. *)
Fixpoint same_logical_shape (j j' : json) {struct j} : bool :=
  match j, j' with
  | JNull, JNull => true
  | JBool b, JBool b' => Bool.eqb b b'
  | JInt n, JInt n' => Z.eqb n n'
  | JStr s, JStr s' => String.eqb s s'
  | JList l, JList l' => forall2b same_logical_shape l l'
  | JDict d, JDict d' =>
      forallb (fun kv =>
                 match renamed_get (reserved_word (fst kv)) d' with
                 | Some v' => same_logical_shape (snd kv) v'
                 | None => is_null (snd kv)
                 end) d
      && forallb (fun kv =>
                    match renamed_get (reserved_word (fst kv)) d with
                    | Some _ => true
                    | None => is_null (snd kv)
                    end) d'
  | _, _ => false
  end.

(* --------------------------------------------------------------------- *)
(** *** Sample inputs *)
(* --------------------------------------------------------------------- *)

Definition country_is_us : Condition :=
  {| column_name := "Country";
     operator := equal_to;
     comparison_value := {| cv_input := Some (SStr "US");
                            cv_datetime := None;
                            cv_column_name := None |} |}.

Definition currency_is_usd : ReplaceCondition :=
  {| rc_condition :=
       {| column_name := "Issue currency";
          operator := does_not_contain;
          comparison_value := {| cv_input := Some (SStr "USD");
                                 cv_datetime := None;
                                 cv_column_name := None |} |};
     function := None |}.

Definition value_zero : ReplaceResultValue :=
  {| cv_input := Some (SInt 0); cv_datetime := None; cv_column_name := None |}.

Definition column_AUM : ReplaceResultValue :=
  {| cv_input := None; cv_datetime := None; cv_column_name := Some "AUM" |}.

(** [{"and": [{"or": [cond]}]}]. *)
Definition nested_expression : LogicalExpression :=
  Build_Expression
    (Some [inl (Build_Expression None (Some [inr country_is_us]) tt)])
    None tt.

(** A backend that holds the given steps and no sample rows, accepts every
    PUT and echoes the steps it was sent. *)
Definition echo_backend (current : list json) : Backend :=
  {| on_get :=
       Ok {| status_code := 200;
             response_json :=
               Ok (JDict [("data", JList []); ("steps", JList current)]) |};
     on_put := fun body =>
       Ok {| status_code := 201;
             response_json :=
               Ok (JDict [("data", JList []);
                          ("steps", match getitem body "steps" with
                                    | Ok s => s
                                    | Raise _ => JNull
                                    end)]) |} |}.

(** A step as the backend stores it. *)
Definition stored_step : json :=
  JDict [("action", JStr "filter");
         ("expression", JDict [("and", JList [dump_Condition country_is_us])]);
         ("error", JNull)].

(** The replace action of the commented example at the end of tools.py,
    shortened to one condition. *)
Definition sample_replace : ReplaceExpression :=
  {| else_ := column_AUM;
     when := [Build_Expression (Some [inr currency_is_usd]) None value_zero] |}.

(** Four rows in which two column ids carry one column name. *)
Definition rows_with_repeated_name : list json :=
  [JDict [("c1", JStr "Name"); ("c2", JStr "Name")];
   JDict [("c1", JInt 1); ("c2", JInt 2)];
   JDict [("c1", JInt 3); ("c2", JInt 4)];
   JDict [("c1", JInt 5); ("c2", JInt 6)]].

(** Four rows of which the second has no cell for [c2]. *)
Definition rows_with_missing_cell : list json :=
  [JDict [("c1", JStr "Country"); ("c2", JStr "AUM")];
   JDict [("c1", JStr "US")];
   JDict [("c1", JStr "FR"); ("c2", JInt 4)];
   JDict [("c1", JStr "DE"); ("c2", JInt 6)]].

(** The filter step of [nested_expression]. *)
Definition nested_step : json :=
  JDict [("expression",
          JDict [("and",
                  JList [JDict [("and", JNull);
                                ("or", JList [dump_Condition
                                                country_is_us])]])]);
         ("action", JStr "filter")].

(** A backend whose last stored step carries an error. *)
Definition failed_step : json :=
  JDict [("action", JStr "filter"); ("error", JStr "no such column")].

Definition erroring_backend : Backend :=
  {| on_get :=
       Ok {| status_code := 200;
             response_json :=
               Ok (JDict [("data", JList []);
                          ("steps", JList [stored_step; failed_step])]) |};
     on_put := fun _ =>
       Ok {| status_code := 500; response_json := Raise (RequestError "") |} |}.

(** A backend that answers every request with status 500. *)
Definition failing_backend : Backend :=
  {| on_get :=
       Ok {| status_code := 500; response_json := Raise (RequestError "") |};
     on_put := fun _ =>
       Ok {| status_code := 500; response_json := Raise (RequestError "") |} |}.

(** The call by which the model hands in its final answer, and another
    call. *)
Definition answer_call : ToolCall :=
  {| tc_name := "StructuredOutputResponse";
     tc_args := JDict [("answer", JStr "Two steps were removed.")];
     tc_id := JStr "call_1" |}.

Definition fetch_call : ToolCall :=
  {| tc_name := "get_transformation_data";
     tc_args := JDict [];
     tc_id := JStr "call_2" |}.

(** A backend that cannot be reached. *)
Definition unreachable_backend : Backend :=
  {| on_get := Raise (RequestError "connection refused");
     on_put := fun _ => Raise (RequestError "connection refused") |}.

(** The leaf of the filter scenario of the specification, a filter
    expression over it, and the replace expression of the replace
    scenario, all three in wire format. *)
Definition wire_country_is_us : json :=
  JDict [("column_name", JStr "Country");
         ("operator", JStr "equal to");
         ("comparison_value", JDict [("input", JStr "US")])].

Definition wire_filter_expression : json :=
  JDict [("and", JList [wire_country_is_us;
                        JDict [("or_", JList [wire_country_is_us])]])].


(* ===================================================================== *)
(** ** Structural validation (classes.py) *)
(* ===================================================================== *)

Section StructureFacts.
Context {Cond Extra : Type}.
Implicit Types (a o : option (list (Member Cond Extra))) (x : Extra).

(** Construction raises exactly when neither branch holds a member. *)
Lemma init_raises_iff a o x :
  is_ok (init a o x) = false <-> py_not a = true /\ py_not o = true.
Proof.
  unfold init, validate_structure; cbn.
  destruct (py_not a), (py_not o); cbn; intuition congruence.
Qed.

Lemma init_ok a o x :
  py_not a && py_not o = false -> init a o x = Ok (Build_Expression a o x).
Proof.
  intros H. unfold init, validate_structure; cbn. now rewrite H.
Qed.

(** Neither branch supplied, or both empty: [ValueError]. *)
Lemma init_neither x :
  init (Cond := Cond) None None x
  = Raise (ValueError
      "Either 'and' or 'or' must be present in LogicalExpression.")
  /\ init (Cond := Cond) (Some []) (Some []) x
     = Raise (ValueError
         "Either 'and' or 'or' must be present in LogicalExpression.").
Proof. split; reflexivity. Qed.

(** Both branches populated: nothing in [validate_structure] objects. *)
Lemma init_both (m m' : Member Cond Extra) ms ms' x :
  init (Some (m :: ms)) (Some (m' :: ms')) x
  = Ok (Build_Expression (Some (m :: ms)) (Some (m' :: ms')) x).
Proof. reflexivity. Qed.
End StructureFacts.

(** C1.  The claim says construction fails when both branches are
    supplied.  On the input [and=[cond], or=[cond]] the constructor of
    [LogicalExpression] returns the object, and so does the constructor of
    [ReplaceLogicalExpression]: [validate_structure] only rejects the case
    where neither branch holds a member. *)
Theorem LogicalExpression_both_branches_accepted :
  init (Some [inr country_is_us]) (Some [inr country_is_us]) tt
  = Ok (Build_Expression (Some [inr country_is_us])
          (Some [inr country_is_us]) tt)
  /\ init (Some [inr currency_is_usd]) (Some [inr currency_is_usd]) value_zero
     = Ok (Build_Expression (Some [inr currency_is_usd])
             (Some [inr currency_is_usd]) value_zero).
Proof. split; reflexivity. Qed.

(* ===================================================================== *)
(** ** The serializer (tools.py) *)
(* ===================================================================== *)

Section DumpFacts.
Context {Cond Extra : Type}.
Variable dump_Cond : Cond -> json.
Variable dump_Extra : Extra -> dict.

(** [model_dump] writes both branch keys at every expression node. *)
Lemma dump_Expression_keys (e : Expression Cond Extra) :
  exists a o,
    dump_Expression dump_Cond dump_Extra e
    = JDict (("and", a) :: ("or", o) :: dump_Extra (extra e))
    /\ (a = JNull <-> and_ e = None)
    /\ (o = JNull <-> or_ e = None).
Proof.
  destruct e as [[a|] [o|] x]; cbn;
    (eexists _, _; split; [reflexivity|]);
    repeat split; intros H; solve [discriminate H | reflexivity].
Qed.

Lemma dump_Expression_has_and_or (e : Expression Cond Extra) :
  has_and_or (dump_Expression dump_Cond dump_Extra e) = true.
Proof.
  destruct (dump_Expression_keys e) as (a & o & -> & _). reflexivity.
Qed.
End DumpFacts.

(** The filter step always comes out, with exactly one branch key at the
    top of its expression: [or] when [and_] is [None], [and] otherwise. *)
Lemma filter_step_top_level (e : LogicalExpression) :
  exists k v,
    filter_step e
    = Ok (JDict [("expression", JDict [(k, v)]); ("action", JStr "filter")])
    /\ k = (match and_ e with None => "or" | Some _ => "and" end).
Proof.
  destruct e as [[a|] o []].
  - eexists _, _. split; reflexivity.
  - eexists _, _. split; reflexivity.
Qed.

Lemma filter_step_nested (e' : LogicalExpression) ms :
  exists step,
    filter_step (Build_Expression (Some (inl e' :: ms)) None tt) = Ok step
    /\ has_and_or step = true.
Proof.
  destruct e' as [a o []].
  eexists. split; reflexivity.
Qed.

(** An empty [and] list next to a populated [or] passes
    [validate_structure]; the tool then keeps [and], which is not null,
    and deletes the populated branch. *)
Lemma filter_step_empty_and (c : Condition) :
  init (Some []) (Some [inr c]) tt
  = Ok (Build_Expression (Some []) (Some [inr c]) tt)
  /\ filter_step (Build_Expression (Some []) (Some [inr c]) tt)
     = Ok (JDict [("expression", JDict [("and", JList [])]);
                  ("action", JStr "filter")]).
Proof. split; reflexivity. Qed.

(** C2.  The claim says no level of a serialized expression holds both
    branch keys.  The filter step of [{"and": [{"or": [cond]}]}] loses the
    null key at the top of the expression only: the nested expression is
    written with [and] (null) next to [or]. *)
Theorem filter_step_nested_keeps_both_keys :
  filter_step nested_expression
  = Ok (JDict
          [("expression",
            JDict [("and",
                    JList [JDict [("and", JNull);
                                  ("or", JList [dump_Condition
                                                  country_is_us])]])]);
           ("action", JStr "filter")])
  /\ (forall step, filter_step nested_expression = Ok step ->
        has_and_or step = true).
Proof.
  split; [reflexivity|].
  intros step H. cbv in H. injection H as <-. reflexivity.
Qed.

(** Every entry of a dumped [when] list keeps exactly one of its two
    branch keys. *)
Lemma strip_when_dump (l : list ReplaceLogicalExpression) :
  strip_when (map dump_ReplaceLogicalExpression l) = Ok (map stripped l).
Proof.
  induction l as [|e l IH]; [reflexivity|].
  cbn [map strip_when].
  destruct e as [[a|] o x];
    cbn -[strip_when map dump_member] in *; rewrite IH; reflexivity.
Qed.

(** The replace step always comes out, in this shape. *)
Lemma replace_step_shape (expression : ReplaceExpression) (column : string) :
  replace_step expression column
  = Ok (JDict [("expression",
                JDict [("when", JList (map stripped (when expression)));
                       ("else", dump_ComparisonValue (else_ expression));
                       ("replace_column", JStr column)]);
               ("action", JStr "replace")]).
Proof.
  destruct expression as [els wh].
  unfold replace_step; cbn -[strip_when dump_ReplaceLogicalExpression stripped].
  rewrite strip_when_dump. reflexivity.
Qed.

(** C6.  For every replace action the step object carries, inside
    [expression], the fallback under [else] (not [else_]) and a copy of
    [replace_column], and has no [replace_column] at its top level. *)
Theorem replace_step_hoists_column (expression : ReplaceExpression)
    (column : string) :
  exists w step e,
    replace_step expression column = Ok step
    /\ step = JDict [("expression", e); ("action", JStr "replace")]
    /\ e = JDict [("when", w);
                  ("else", dump_ComparisonValue (else_ expression));
                  ("replace_column", JStr column)]
    /\ getitem e "else" = Ok (dump_ComparisonValue (else_ expression))
    /\ getitem e "else_" = Raise (KeyError (JStr "else_"))
    /\ getitem e "replace_column" = Ok (JStr column)
    /\ getitem step "replace_column" = Raise (KeyError (JStr "replace_column")).
Proof.
  eexists _, _, _. split; [apply replace_step_shape|].
  repeat split; reflexivity.
Qed.

(* ===================================================================== *)
(** ** The step accumulator (tools.py) *)
(* ===================================================================== *)

Lemma pop_nonempty (l : list json) :
  l <> [] -> pop (JList l) = Ok (JList (removelast l)).
Proof. destruct l; [congruence | reflexivity]. Qed.

Lemma length_removelast (l : list json) :
  List.length (removelast l) = (List.length l - 1)%nat.
Proof.
  induction l as [|x [|y r] IH]; cbn in *; [reflexivity | reflexivity | lia].
Qed.

(** Popping as many times as there are steps empties the list. *)
Lemma pop_times_all (l : list json) :
  pop_times (List.length l) (JList l) = Ok (JList []).
Proof.
  remember (List.length l) as k eqn:Hk.
  revert l Hk. induction k as [|k IH]; intros l Hk.
  - destruct l; [reflexivity | discriminate].
  - cbn [pop_times]. rewrite pop_nonempty by (destruct l; cbn in *; congruence).
    cbn [bindE]. apply IH. rewrite length_removelast. lia.
Qed.

(** Popping more often than there are steps raises [IndexError]: the pop
    that finds the list empty. *)
Lemma pop_times_beyond (k : nat) (l : list json) :
  (List.length l < k)%nat -> pop_times k (JList l) = Raise IndexError.
Proof.
  revert l. induction k as [|k IH]; intros l Hk; [lia|].
  cbn [pop_times]. destruct l as [|x r] eqn:El; [reflexivity|].
  rewrite <- El in *. rewrite pop_nonempty by congruence.
  cbn [bindE]. apply IH. rewrite length_removelast. subst l; cbn in *; lia.
Qed.

Section AccumulatorFacts.
Variable py_repr : json -> string.
Variable exn_str : exn -> string.
Variable backend : Backend.

(** What [remove_last_step] does once the fetch has returned the list
    [l]: the count becomes [max n (length l)]. *)
Lemma remove_last_step_after_fetch n log log' d l :
  get_transformation_data py_repr backend log = (Ok (Data d), log') ->
  steps d = JList l ->
  remove_last_step py_repr exn_str backend n log
  = try_except
      (bindT (lift (pop_times (Z.to_nat (Z.max n (Z.of_nat (List.length l))))
                      (JList l)))
             (fun s => put_steps py_repr backend s
                         "Failed to remove the last step: "))
      (fun e => ret (Message ("Failed to remove the last step: " ++ exn_str e)))
      log'.
Proof.
  intros Hget Hsteps.
  replace (Z.max n (Z.of_nat (List.length l)))
    with (if Z.of_nat (List.length l) >? n
          then Z.of_nat (List.length l) else n)
    by (destruct (Z.gtb_spec (Z.of_nat (List.length l)) n); lia).
  unfold remove_last_step, try_except, bindT at 1.
  rewrite Hget.
  unfold bindT at 1, lift at 1. cbn [steps_of]. rewrite Hsteps.
  unfold bindT at 1, lift at 1. cbn [py_len].
  reflexivity.
Qed.

(** A count above the number of steps: the tool returns the failure
    message of the [IndexError] and sends no PUT. *)
Lemma remove_last_step_beyond n log log' d l :
  get_transformation_data py_repr backend log = (Ok (Data d), log') ->
  steps d = JList l ->
  Z.of_nat (List.length l) < n ->
  remove_last_step py_repr exn_str backend n log
  = (Ok (Message ("Failed to remove the last step: " ++ exn_str IndexError)),
     log').
Proof.
  intros Hget Hsteps Hn.
  rewrite (remove_last_step_after_fetch _ _ _ _ _ Hget Hsteps).
  unfold try_except, bindT, lift.
  rewrite pop_times_beyond by lia. reflexivity.
Qed.

(** The two tools whose handler re-raises let the exception of the
    request out. *)
Lemma get_transformation_data_reraises e log :
  on_get backend = Raise e ->
  get_transformation_data py_repr backend log = (Raise e, (log ++ [GET])%list).
Proof.
  intros H. unfold get_transformation_data, try_except, bindT, requests_get.
  now rewrite H.
Qed.

Lemma add_replace_action_tool_reraises expression column e log :
  on_get backend = Raise e ->
  add_replace_action_tool py_repr backend expression column log
  = (Raise e, (log ++ [GET])%list).
Proof.
  intros H. unfold add_replace_action_tool, try_except, bindT at 1, lift.
  rewrite replace_step_shape. unfold bindT at 1.
  now rewrite (get_transformation_data_reraises e log H).
Qed.

(** The two tools whose handler returns a message never raise. *)
Lemma remove_last_step_never_raises n log :
  is_ok (fst (remove_last_step py_repr exn_str backend n log)) = true.
Proof.
  unfold remove_last_step, try_except.
  match goal with |- context [match ?m with _ => _ end] =>
    destruct m as [[r|e] log'] end; reflexivity.
Qed.

Lemma add_filter_action_tool_never_raises expression log :
  is_ok (fst (add_filter_action_tool py_repr exn_str backend expression log))
  = true.
Proof.
  unfold add_filter_action_tool, try_except.
  match goal with |- context [match ?m with _ => _ end] =>
    destruct m as [[r|e] log'] end; reflexivity.
Qed.
End AccumulatorFacts.

(** C3.  The claim says a count above the number of steps empties the list
    without an error.  With one step stored and [number_of_steps = 2] the
    count stays 2, the second [pop] raises [IndexError], and the tool
    returns the failure message; no PUT is sent, so the stored list is
    unchanged. *)
Theorem remove_last_step_count_above_length py_repr exn_str :
  remove_last_step py_repr exn_str (echo_backend [stored_step]) 2 []
  = (Ok (Message ("Failed to remove the last step: " ++ exn_str IndexError)),
     [GET]).
Proof. reflexivity. Qed.

(** C4.  When the requested count is smaller than the number of steps the
    fetch returned, the count is replaced by that number: every step is
    popped, the one PUT carries an empty step list, and the outcome is that
    of asking for all of them. *)
Theorem remove_last_step_fewer_removes_all py_repr exn_str backend
    (n : Z) log log' d (l : list json) :
  get_transformation_data py_repr backend log = (Ok (Data d), log') ->
  steps d = JList l ->
  n < Z.of_nat (List.length l) ->
  snd (remove_last_step py_repr exn_str backend n log)
  = (log' ++ [PUT (JDict [("steps", JList [])])])%list
  /\ remove_last_step py_repr exn_str backend n log
     = remove_last_step py_repr exn_str backend (Z.of_nat (List.length l)) log.
Proof.
  intros Hget Hsteps Hn.
  rewrite !(remove_last_step_after_fetch _ _ _ _ _ _ _ _ Hget Hsteps).
  rewrite Z.max_id, Z.max_r by lia. rewrite Nat2Z.id.
  split; [|reflexivity].
  unfold try_except, bindT at 1, lift. rewrite pop_times_all.
  unfold put_steps, bindT at 1, requests_put.
  destruct (on_put backend _) as [response|e]; [|reflexivity].
  destruct (status_code response =? 201); [|reflexivity].
  unfold bindT at 1, lift.
  destruct (response_json response) as [response_data|e]; [|reflexivity].
  unfold bindT.
  destruct (change_response_data py_repr response_data true); reflexivity.
Qed.

Lemma remove_last_step_fewer_removes_all_witness :
  snd (remove_last_step (fun _ => "") (fun _ => "")
         (echo_backend [stored_step; stored_step; stored_step]) 1 [])
  = [GET; PUT (JDict [("steps", JList [])])].
Proof.
  apply (remove_last_step_fewer_removes_all (fun _ => "") (fun _ => "")
           (echo_backend [stored_step; stored_step; stored_step]) 1 [] [GET]
           {| data := [];
              steps := JList [stored_step; stored_step; stored_step];
              error := None |}
           [stored_step; stored_step; stored_step]).
  - reflexivity.
  - reflexivity.
  - cbn. lia.
Defined.

(** C5.  The claim says no tool lets an exception out.  With the backend
    out of reach, [get_transformation_data] and [add_replace_action_tool]
    raise the exception of the request: their handlers re-raise it. *)
Theorem fetch_and_replace_reraise py_repr :
  get_transformation_data py_repr unreachable_backend []
  = (Raise (RequestError "connection refused"), [GET])
  /\ add_replace_action_tool py_repr unreachable_backend sample_replace "AUM" []
     = (Raise (RequestError "connection refused"), [GET]).
Proof. split; reflexivity. Qed.

(* ===================================================================== *)
(** ** The response pivot (tools.py) *)
(* ===================================================================== *)

(** *** Equality of keys *)

Ltac key_cases :=
  repeat match goal with
         | |- context [Z.eqb ?a ?b] => destruct (Z.eqb_spec a b)
         | |- context [String.eqb ?a ?b] => destruct (String.eqb_spec a b)
         | H : context [Z.eqb ?a ?b] |- _ => destruct (Z.eqb_spec a b)
         | H : context [String.eqb ?a ?b] |- _ => destruct (String.eqb_spec a b)
         | b : bool |- _ => destruct b
         end;
  cbn in *; subst; try congruence; try lia.

Lemma key_eqb_refl x : hashable x = true -> key_eqb x x = true.
Proof. destruct x; cbn; intros; key_cases. Qed.

Lemma key_eqb_sym x y : key_eqb x y = key_eqb y x.
Proof. destruct x, y; cbn; key_cases. Qed.

Lemma key_eqb_trans x y z :
  key_eqb x y = true -> key_eqb y z = true -> key_eqb x z = true.
Proof. destruct x, y, z; cbn; intros; key_cases. Qed.

Lemma key_eqb_hashable x y : key_eqb x y = true -> hashable x = true.
Proof. destruct x, y; cbn; congruence. Qed.

(** Equal keys compare alike with every third key. *)
Lemma key_eqb_congr x y z : key_eqb x y = true -> key_eqb x z = key_eqb y z.
Proof.
  intros Hxy.
  destruct (key_eqb y z) eqn:Hyz.
  - eauto using key_eqb_trans.
  - destruct (key_eqb x z) eqn:Hxz; [|reflexivity].
    rewrite key_eqb_sym in Hxy.
    now rewrite (key_eqb_trans _ _ _ Hxy Hxz) in Hyz.
Qed.

(** *** Dictionaries given by a key list and a function *)

Lemma tabulate_ext {V} keys (f g : json -> V) :
  (forall k, In k keys -> f k = g k) -> tabulate keys f = tabulate keys g.
Proof.
  intros H. apply map_ext_in. intros k Hk. now rewrite H.
Qed.

Lemma distinct_keys_unique keys m n :
  distinct_keys keys = true -> In m keys -> In n keys ->
  key_eqb m n = true -> m = n.
Proof.
  induction keys as [|k r IH]; cbn; [tauto|].
  intros Hd [<-|Hm] [<-|Hn] E; auto.
  - apply andb_prop in Hd as [Hd _]. apply andb_prop in Hd as [_ Hd].
    rewrite forallb_forall in Hd. apply Hd in Hn. now rewrite E in Hn.
  - apply andb_prop in Hd as [Hd _]. apply andb_prop in Hd as [_ Hd].
    rewrite forallb_forall in Hd. apply Hd in Hm.
    rewrite key_eqb_sym in E. now rewrite E in Hm.
  - apply andb_prop in Hd as [_ Hd]. auto.
Qed.

Lemma distinct_keys_hashable keys k :
  distinct_keys keys = true -> In k keys -> hashable k = true.
Proof.
  induction keys as [|k' r IH]; cbn; [tauto|].
  intros Hd [<-|Hk].
  - apply andb_prop in Hd as [Hd _]. now apply andb_prop in Hd as [Hd _].
  - apply andb_prop in Hd as [_ Hd]. auto.
Qed.

Lemma covers_spec keys k :
  covers keys k = true <-> exists n, In n keys /\ key_eqb n k = true.
Proof. unfold covers. apply existsb_exists. Qed.

Lemma assoc_get_tabulate {V} keys (f : json -> V) n k :
  distinct_keys keys = true -> In n keys -> key_eqb n k = true ->
  assoc_get key_eqb k (tabulate keys f) = Some (f n).
Proof.
  intros Hd Hn E. induction keys as [|k0 r IH]; [destruct Hn|].
  cbn. destruct (key_eqb k0 k) eqn:E0.
  - f_equal. f_equal. apply (distinct_keys_unique (k0 :: r)); auto.
    + now left.
    + rewrite key_eqb_sym in E. eauto using key_eqb_trans.
  - destruct Hn as [->|Hn]; [congruence|].
    apply IH; auto. cbn in Hd. now apply andb_prop in Hd as [_ Hd].
Qed.

Lemma assoc_get_tabulate_none {V} keys (f : json -> V) k :
  covers keys k = false -> assoc_get key_eqb k (tabulate keys f) = None.
Proof.
  induction keys as [|k0 r IH]; cbn; [reflexivity|].
  intros H. apply orb_false_elim in H as [-> H]. auto.
Qed.

(** Assigning at a key the dictionary has changes the value there and
    nothing else. *)
Lemma assoc_set_tabulate {V} keys (f : json -> V) k v :
  distinct_keys keys = true -> covers keys k = true ->
  assoc_set key_eqb k v (tabulate keys f)
  = tabulate keys (fun n => if key_eqb n k then v else f n).
Proof.
  induction keys as [|k0 r IH]; cbn; [discriminate|].
  intros Hd Hc. apply andb_prop in Hd as [Hd Hr].
  apply andb_prop in Hd as [_ Hd].
  destruct (key_eqb k0 k) eqn:E0; cbn.
  - f_equal. apply tabulate_ext. intros n Hn.
    rewrite forallb_forall in Hd. apply Hd in Hn.
    rewrite (key_eqb_congr k0 k n E0), key_eqb_sym in Hn.
    now destruct (key_eqb n k).
  - f_equal. apply IH; auto.
Qed.

(** Assigning at a new key puts it last. *)
Lemma assoc_set_tabulate_new {V} keys (f : json -> V) k v :
  hashable k = true -> covers keys k = false ->
  assoc_set key_eqb k v (tabulate keys f)
  = tabulate (keys ++ [k]) (fun n => if key_eqb n k then v else f n).
Proof.
  intros Hk. induction keys as [|k0 r IH]; cbn.
  - intros _. now rewrite key_eqb_refl.
  - intros H. apply orb_false_elim in H as [E0 H]. rewrite E0.
    f_equal. auto.
Qed.

(** *** The keys [init_columns] creates *)

Lemma covers_app keys keys' k :
  covers (keys ++ keys') k = covers keys k || covers keys' k.
Proof. unfold covers. apply existsb_app. Qed.

Lemma distinct_keys_snoc keys c :
  distinct_keys keys = true -> hashable c = true -> covers keys c = false ->
  distinct_keys (keys ++ [c]) = true.
Proof.
  induction keys as [|k r IH]; cbn; intros Hd Hc Hn.
  - now rewrite Hc.
  - apply andb_prop in Hd as [Hd Hr]. apply andb_prop in Hd as [Hk Hd].
    apply orb_false_elim in Hn as [E Hn].
    rewrite Hk, IH, forallb_app, Hd by assumption. cbn. now rewrite E.
Qed.

Lemma column_keys_cons c cols keys :
  column_keys (c :: cols) keys
  = column_keys cols (if covers keys c then keys else (keys ++ [c])%list).
Proof. reflexivity. Qed.

Lemma column_keys_prefix cols keys :
  exists new, column_keys cols keys = (keys ++ new)%list.
Proof.
  revert keys. induction cols as [|c r IH]; intros keys.
  - exists []. cbn. now rewrite app_nil_r.
  - rewrite column_keys_cons. destruct (covers keys c); [apply IH|].
    destruct (IH (keys ++ [c])%list) as [new ->].
    exists (c :: new). now rewrite <- app_assoc.
Qed.

Lemma column_keys_covers_old cols keys k :
  covers keys k = true -> covers (column_keys cols keys) k = true.
Proof.
  intros H. destruct (column_keys_prefix cols keys) as [new ->].
  now rewrite covers_app, H.
Qed.

Lemma column_keys_covers cols keys c :
  hashable c = true -> In c cols -> covers (column_keys cols keys) c = true.
Proof.
  intros Hc. revert keys.
  induction cols as [|c' r IH]; intros keys; [intros []|].
  intros [->|Hin]; rewrite column_keys_cons.
  - destruct (covers keys c) eqn:E.
    + now apply column_keys_covers_old.
    + apply column_keys_covers_old.
      rewrite covers_app. cbn. now rewrite key_eqb_refl, orb_true_r.
  - destruct (covers keys c'); auto.
Qed.

Lemma column_keys_distinct cols keys :
  distinct_keys keys = true -> forallb hashable cols = true ->
  distinct_keys (column_keys cols keys) = true.
Proof.
  revert keys. induction cols as [|c r IH]; intros keys Hd Hh; [exact Hd|].
  cbn in Hh. apply andb_prop in Hh as [Hc Hh]. rewrite column_keys_cons.
  destruct (covers keys c) eqn:E; auto using distinct_keys_snoc.
Qed.

(** A key of the result is an old key or the first column name of its
    kind. *)
Lemma column_keys_first cols keys n :
  In n (column_keys cols keys) ->
  In n keys
  \/ (covers keys n = false
      /\ exists pre post, cols = (pre ++ n :: post)%list
                          /\ forall p, In p pre -> key_eqb n p = false).
Proof.
  revert keys. induction cols as [|c r IH]; intros keys Hn; [now left|].
  rewrite column_keys_cons in Hn. destruct (covers keys c) eqn:E.
  - destruct (IH _ Hn) as [H|(Hc & pre & post & -> & Hpre)]; [now left|].
    right. split; [assumption|]. exists (c :: pre), post. split; [reflexivity|].
    intros p [<-|Hp]; auto.
    destruct (key_eqb n c) eqn:Enc; [|reflexivity].
    apply covers_spec in E as (k & Hk & Ekc).
    assert (covers keys n = true); [|congruence].
    apply covers_spec. exists k. split; [assumption|].
    rewrite key_eqb_sym in Enc. eauto using key_eqb_trans.
  - destruct (IH _ Hn) as [H|(Hc & pre & post & -> & Hpre)].
    + apply in_app_or in H as [H|[<-|[]]]; [now left|].
      right. split; [assumption|]. exists [], r. split; [reflexivity|].
      intros p [].
    + rewrite covers_app in Hc. apply orb_false_elim in Hc as [Hc Hcn].
      right. split; [assumption|]. exists (c :: pre), post.
      split; [reflexivity|].
      intros p [<-|Hp]; auto.
      cbn in Hcn. rewrite orb_false_r in Hcn. now rewrite key_eqb_sym.
Qed.

Lemma distinct_keys_app_cons keys c r :
  distinct_keys (keys ++ c :: r) = true -> covers keys c = false.
Proof.
  induction keys as [|k ks IH]; cbn; [reflexivity|].
  intros Hd. apply andb_prop in Hd as [Hd Hr]. apply andb_prop in Hd as [_ Hd].
  rewrite forallb_app in Hd. apply andb_prop in Hd as [_ Hd].
  cbn in Hd. apply andb_prop in Hd as [Hd _].
  apply negb_true_iff in Hd. rewrite Hd. auto.
Qed.

(** Pairwise distinct column names all become keys. *)
Lemma column_keys_of_distinct cols keys :
  distinct_keys (keys ++ cols) = true ->
  column_keys cols keys = (keys ++ cols)%list.
Proof.
  revert keys. induction cols as [|c r IH]; intros keys Hd.
  - cbn. now rewrite app_nil_r.
  - rewrite column_keys_cons, (distinct_keys_app_cons _ _ _ Hd).
    replace (keys ++ c :: r)%list with ((keys ++ [c]) ++ r)%list in *
      by now rewrite <- app_assoc.
    auto.
Qed.

(** *** The loops of the pivot, on dictionaries in closed form *)

Lemma init_columns_tabulate cols keys (f : json -> list json) :
  forallb hashable cols = true -> distinct_keys keys = true ->
  init_columns cols (tabulate keys f)
  = Ok (tabulate (column_keys cols keys)
          (fun n => if covers cols n then [] else f n)).
Proof.
  revert keys f. induction cols as [|c r IH]; intros keys f Hh Hd;
    [reflexivity|].
  cbn in Hh. apply andb_prop in Hh as [Hc Hh].
  cbn [init_columns]. rewrite column_keys_cons, Hc.
  destruct (covers keys c) eqn:E.
  - rewrite assoc_set_tabulate, IH by assumption.
    f_equal. apply tabulate_ext. intros n _.
    change (covers (c :: r) n) with (key_eqb c n || covers r n).
    rewrite (key_eqb_sym c n).
    now destruct (key_eqb n c), (covers r n).
  - rewrite assoc_set_tabulate_new, IH by auto using distinct_keys_snoc.
    f_equal. apply tabulate_ext. intros n _.
    change (covers (c :: r) n) with (key_eqb c n || covers r n).
    rewrite (key_eqb_sym c n).
    now destruct (key_eqb n c), (covers r n).
Qed.

Lemma append_value_tabulate keys (f : json -> list json) name v :
  distinct_keys keys = true -> hashable name = true ->
  covers keys name = true ->
  append_value name v (tabulate keys f)
  = Ok (tabulate keys
          (fun n => (f n ++ if key_eqb n name then [v] else [])%list)).
Proof.
  intros Hd Hh Hc. unfold append_value. rewrite Hh.
  pose proof Hc as Hc'. apply covers_spec in Hc' as (n0 & Hn0 & E0).
  rewrite (assoc_get_tabulate keys f n0 name) by assumption.
  rewrite assoc_set_tabulate by assumption.
  f_equal. apply tabulate_ext. intros n Hn.
  destruct (key_eqb n name) eqn:E; [|now rewrite app_nil_r].
  replace n with n0; [reflexivity|].
  apply (distinct_keys_unique keys); auto.
  rewrite key_eqb_sym in E. eauto using key_eqb_trans.
Qed.

Section PivotLoops.
Variable column_row : dict.
Variable keys : list json.
Hypothesis keys_distinct : distinct_keys keys = true.
Hypothesis names_covered :
  forall key name, dict_get key column_row = Some name ->
                   hashable name = true /\ covers keys name = true.

Lemma append_row_tabulate items (f : json -> list json) :
  forallb (fun kv => dict_mem (fst kv) column_row) items = true ->
  append_row (JDict column_row) items (tabulate keys f)
  = Ok (tabulate keys
          (fun n => (f n ++ contributions column_row n items)%list)).
Proof.
  revert f. induction items as [|[key v] rest IH]; intros f Hin.
  - cbn. f_equal. apply tabulate_ext. intros. now rewrite app_nil_r.
  - cbn in Hin. apply andb_prop in Hin as [Hk Hin].
    unfold dict_mem, assoc_mem in Hk. fold (dict_get key column_row) in Hk.
    cbn [append_row getitem].
    destruct (dict_get key column_row) as [name|] eqn:Eget; [|discriminate].
    destruct (names_covered _ _ Eget) as [Hh Hc].
    cbn [bindE]. rewrite append_value_tabulate by assumption.
    cbn [bindE]. rewrite IH by assumption.
    f_equal. apply tabulate_ext. intros n _.
    unfold contributions. cbn [flat_map fst snd]. rewrite Eget.
    now rewrite <- app_assoc.
Qed.

Lemma pivot_rows_tabulate rows index (f : json -> list json) :
  0 <= index <= 2 ->
  forallb (row_ok column_row) (firstn (Z.to_nat (3 - index)) rows) = true ->
  pivot_rows (JDict column_row) rows index (tabulate keys f)
  = Ok (tabulate keys
          (fun n =>
             (f n ++ flat_map (fun row =>
                                 contributions column_row n (items_of row))
                       (firstn (Z.to_nat (3 - index)) rows))%list)).
Proof.
  revert index f. induction rows as [|row rest IH]; intros index f Hi Hok.
  - rewrite firstn_nil. cbn. f_equal. apply tabulate_ext.
    intros. now rewrite app_nil_r.
  - replace (Z.to_nat (3 - index)) with (S (Z.to_nat (3 - (index + 1))))
      in * by lia.
    cbn [firstn forallb flat_map] in *.
    apply andb_prop in Hok as [Hrow Hok].
    destruct row as [| | | | |items]; try discriminate Hrow.
    cbn [pivot_rows py_items bindE row_ok items_of] in *.
    rewrite append_row_tabulate by assumption. cbn [bindE].
    destruct (Z.gtb_spec (index + 1) 2) as [Hgt|Hle].
    + replace (Z.to_nat (3 - (index + 1))) with O by lia.
      cbn. f_equal. apply tabulate_ext. intros. now rewrite app_nil_r.
    + rewrite IH by (assumption || lia).
      f_equal. apply tabulate_ext. intros. now rewrite <- app_assoc.
Qed.
End PivotLoops.

(** The pivot of a list whose first row is a dictionary with hashable
    values and whose sampled rows use its column ids only: it returns, and
    what it returns is [pivoted]. *)
Lemma pivot_closed_form (column_row : dict) (rest : list json) :
  forallb hashable (map snd column_row) = true ->
  forallb (row_ok column_row) (sampled (JDict column_row :: rest)) = true ->
  pivot (JList (JDict column_row :: rest))
  = Ok (pivoted column_row (JDict column_row :: rest)).
Proof.
  intros Hh Hok. unfold pivot.
  cbn [py_len bindE List.length first_item py_values iterate].
  replace (negb (Z.of_nat (S (List.length rest)) =? 0)) with true
    by (symmetry; apply negb_true_iff, Z.eqb_neq; lia).
  change (@nil (json * list json)) with (tabulate [] (fun _ : json => @nil json)).
  rewrite init_columns_tabulate by (assumption || reflexivity). cbn [bindE].
  assert (Hd : distinct_keys (column_keys (map snd column_row) []) = true)
    by (apply column_keys_distinct; [reflexivity | assumption]).
  rewrite (pivot_rows_tabulate column_row _ Hd).
  - unfold pivoted, sampled. apply f_equal, tabulate_ext. intros n _.
    now destruct (covers (map snd column_row) n).
  - intros key name Hget.
    assert (Hin : In name (map snd column_row)).
    { clear -Hget. unfold dict_get in Hget.
      induction column_row as [|[k v] r IH]; [discriminate|].
      cbn in *. destruct (String.eqb k key); [left; congruence | right; auto]. }
    rewrite forallb_forall in Hh.
    split; [auto | apply column_keys_covers; auto].
  - lia.
  - exact Hok.
Qed.

(** *** The inputs on which the pivot returns *)

Lemma init_columns_returns cols altered out :
  init_columns cols altered = Ok out -> forallb hashable cols = true.
Proof.
  revert altered. induction cols as [|c r IH]; intros altered H;
    [reflexivity|].
  cbn in *. destruct (hashable c); [eauto | discriminate].
Qed.

Lemma append_row_returns (column_row items : dict) altered out :
  append_row (JDict column_row) items altered = Ok out ->
  forallb (fun kv => dict_mem (fst kv) column_row) items = true.
Proof.
  revert altered. induction items as [|[key v] rest IH]; intros altered H;
    [reflexivity|].
  cbn [append_row getitem] in H. cbn [forallb fst].
  unfold dict_mem, assoc_mem. fold (dict_get key column_row).
  destruct (dict_get key column_row) as [name|]; [|discriminate].
  cbn [bindE] in H.
  destruct (append_value name v altered) as [altered'|]; [|discriminate].
  cbn [bindE] in H. eauto.
Qed.

Lemma pivot_rows_returns (column_row : dict) rows index altered out :
  0 <= index <= 2 ->
  pivot_rows (JDict column_row) rows index altered = Ok out ->
  forallb (row_ok column_row) (firstn (Z.to_nat (3 - index)) rows) = true.
Proof.
  revert index altered. induction rows as [|row rest IH];
    intros index altered Hi H.
  - now rewrite firstn_nil.
  - replace (Z.to_nat (3 - index)) with (S (Z.to_nat (3 - (index + 1))))
      by lia.
    cbn [firstn forallb]. cbn [pivot_rows] in H.
    destruct row as [| | | | |items]; try discriminate H.
    cbn [py_items bindE row_ok] in *.
    destruct (append_row (JDict column_row) items altered) as [altered'|]
      eqn:E; [|discriminate].
    rewrite (append_row_returns _ _ _ _ E). cbn [bindE andb] in *.
    destruct (Z.gtb_spec (index + 1) 2) as [Hgt|Hle].
    + now replace (Z.to_nat (3 - (index + 1))) with O by lia.
    + apply (IH (index + 1) altered'); [lia | assumption].
Qed.

(** The pivot of a non-empty list returns only when the first row is a
    dictionary with hashable values and the sampled rows are dictionaries
    over its column ids. *)
Lemma pivot_returns (row : json) (rest : list json) out :
  pivot (JList (row :: rest)) = Ok out ->
  exists column_row,
    row = JDict column_row
    /\ forallb hashable (map snd column_row) = true
    /\ forallb (row_ok column_row) (firstn 2 rest) = true.
Proof.
  unfold pivot. cbn [py_len bindE List.length first_item iterate].
  replace (negb (Z.of_nat (S (List.length rest)) =? 0)) with true
    by (symmetry; apply negb_true_iff, Z.eqb_neq; lia).
  destruct row as [| | | | |column_row]; try discriminate.
  cbn [py_values bindE]. intros H. exists column_row.
  destruct (init_columns (map snd column_row) []) as [altered|] eqn:E;
    [|discriminate].
  cbn [bindE] in H.
  apply pivot_rows_returns in H; [|lia].
  cbn [firstn forallb Z.to_nat Z.sub Z.opp Z.add Pos.to_nat Pos.iter_op
         Init.Nat.add] in H.
  apply andb_prop in H as [_ H].
  repeat split; eauto using init_columns_returns.
Qed.

(** *** What a row contributes *)

Lemma dict_get_In key v (d : dict) : dict_get key d = Some v -> In (key, v) d.
Proof.
  unfold dict_get. induction d as [|[k x] r IH]; cbn; [discriminate|].
  destruct (String.eqb_spec k key) as [->|_]; [left; congruence | right; auto].
Qed.

Lemma dict_mem_In key v (d : dict) : In (key, v) d -> dict_mem key d = true.
Proof.
  unfold dict_mem, assoc_mem. induction d as [|[k x] r IH]; cbn; [tauto|].
  intros [E|H].
  - injection E as -> ->. now rewrite String.eqb_refl.
  - destruct (String.eqb k key); auto.
Qed.

Lemma dict_mem_get key (d : dict) :
  dict_mem key d = true -> exists v, dict_get key d = Some v.
Proof.
  unfold dict_mem, assoc_mem. fold (dict_get key d).
  destruct (dict_get key d); [eauto | discriminate].
Qed.

(** In a dictionary without repeated keys, an entry is what its key looks
    up. *)
Lemma unique_keys_get key v (d : dict) :
  unique_keys d = true -> In (key, v) d -> dict_get key d = Some v.
Proof.
  unfold dict_get. induction d as [|[k x] r IH]; cbn; [tauto|].
  intros Hu [E|H]; apply andb_prop in Hu as [Hk Hu].
  - injection E as -> ->. now rewrite String.eqb_refl.
  - destruct (String.eqb_spec k key) as [->|_]; auto.
    apply dict_mem_In in H. now rewrite H in Hk.
Qed.

Lemma row_ok_self (d : dict) : row_ok d (JDict d) = true.
Proof.
  cbn. apply forallb_forall. intros [k v] H. eauto using dict_mem_In.
Qed.

Lemma unique_keys_filter key v (d : dict) :
  unique_keys d = true -> dict_get key d = Some v ->
  filter (fun kv => String.eqb (fst kv) key) d = [(key, v)].
Proof.
  unfold dict_get. induction d as [|[k x] r IH]; cbn; [discriminate|].
  intros Hu Hg. apply andb_prop in Hu as [Hk Hu].
  destruct (String.eqb_spec k key) as [->|Hne].
  - injection Hg as ->. f_equal.
    clear IH Hu. induction r as [|[k' x'] r IH]; [reflexivity|].
    unfold dict_mem, assoc_mem in Hk. cbn in *.
    destruct (String.eqb k' key); [discriminate | auto].
  - auto.
Qed.

(** The first row contributes to a column the names equal to its key. *)
Lemma contributions_first_row (d : dict) name items :
  (forall kv, In kv items -> dict_get (fst kv) d = Some (snd kv)) ->
  contributions d name items = filter (key_eqb name) (map snd items).
Proof.
  induction items as [|[k v] r IH]; intros H; [reflexivity|].
  unfold contributions in *. cbn [flat_map map filter fst snd].
  pose proof (H (k, v) (or_introl eq_refl)) as Hk. cbn [fst snd] in Hk.
  rewrite Hk, IH by (intros; apply H; now right).
  now destruct (key_eqb name v).
Qed.

(** When the names of the first row are pairwise distinct, a row
    contributes to the column of [name] its values under the column id of
    [name]. *)
Lemma contributions_by_id (d : dict) key name items :
  unique_keys d = true -> distinct_keys (map snd d) = true ->
  In (key, name) d ->
  forallb (fun kv => dict_mem (fst kv) d) items = true ->
  contributions d name items
  = map snd (filter (fun kv => String.eqb (fst kv) key) items).
Proof.
  intros Hu Hd Hin. induction items as [|[k v] r IH]; intros Hok;
    [reflexivity|].
  cbn in Hok. apply andb_prop in Hok as [Hk Hok].
  unfold contributions in *. cbn [flat_map filter fst snd].
  rewrite IH by assumption.
  destruct (dict_mem_get _ _ Hk) as [n Hn]. rewrite Hn.
  assert (Hname : In name (map snd d)) by (apply (in_map snd _ _ Hin)).
  destruct (String.eqb_spec k key) as [->|Hne].
  - rewrite (unique_keys_get _ _ _ Hu Hin) in Hn. injection Hn as <-.
    rewrite key_eqb_refl by eauto using distinct_keys_hashable. reflexivity.
  - destruct (key_eqb name n) eqn:E; [|reflexivity].
    exfalso. apply Hne.
    apply dict_get_In in Hn.
    assert (name = n).
    { apply (distinct_keys_unique (map snd d)); auto.
      apply (in_map snd _ _ Hn). }
    subst n. clear -Hd Hin Hn.
    induction d as [|[k0 n0] d IH]; [destruct Hin|].
    cbn in Hd. apply andb_prop in Hd as [Hd Hr].
    apply andb_prop in Hd as [Hh Hd]. rewrite forallb_forall in Hd.
    assert (Hself : forall k', In (k', n0) d -> False).
    { intros k' H'. apply (in_map snd) in H'. apply Hd in H'. cbn in H'.
      now rewrite key_eqb_refl in H'. }
    destruct Hin as [E1|H1], Hn as [E2|H2].
    + congruence.
    + injection E1 as -> ->. now apply Hself in H2.
    + injection E2 as -> ->. now apply Hself in H1.
    + auto.
Qed.

(** C10.  For a non-empty input whose first row the pivot can read (its
    values are hashable; the next two rows, where present, are
    dictionaries over its column ids), the pivot returns a dictionary that
    has a column for every name of the first row, and the first value of
    every column is the column's own name: the mapping row is counted as
    a data row. *)
Theorem pivot_first_value_is_name (column_row : dict) (rest : list json) :
  unique_keys column_row = true ->
  forallb hashable (map snd column_row) = true ->
  forallb (row_ok column_row) (firstn 2 rest) = true ->
  exists out,
    pivot (JList (JDict column_row :: rest)) = Ok out
    /\ (forall key name, In (key, name) column_row ->
          covers (map fst out) name = true)
    /\ (forall name values, In (name, values) out ->
          exists more, values = name :: more).
Proof.
  intros Hu Hh Hok.
  exists (pivoted column_row (JDict column_row :: rest)).
  split; [|split].
  - apply pivot_closed_form; [assumption|].
    unfold sampled. cbn [firstn forallb]. now rewrite row_ok_self.
  - intros key name Hin. unfold pivoted, tabulate.
    rewrite map_map, map_id. cbn [fst].
    apply (in_map snd) in Hin. rewrite forallb_forall in Hh.
    apply column_keys_covers; auto.
  - intros name values Hin. unfold pivoted, tabulate in Hin.
    apply in_map_iff in Hin as (n & E & Hn). injection E as <- <-.
    unfold sampled. cbn [firstn flat_map items_of].
    rewrite contributions_first_row
      by (intros [k v] H; now apply unique_keys_get).
    destruct (column_keys_first _ _ _ Hn) as [[]|(_ & pre & post & E & Hpre)].
    rewrite E, filter_app.
    replace (filter (key_eqb n) pre) with (@nil json).
    + cbn [app filter]. rewrite key_eqb_refl; [eexists; reflexivity|].
      rewrite forallb_forall in Hh. apply Hh. rewrite E.
      apply in_or_app. right. now left.
    + symmetry. clear -Hpre. induction pre as [|p pre IH]; [reflexivity|].
      cbn. rewrite Hpre by now left. apply IH. intros; apply Hpre. now right.
Qed.

Lemma pivot_first_value_is_name_witness :
  exists out,
    pivot (JList [JDict [("c1", JStr "Country"); ("c2", JStr "AUM")];
                  JDict [("c1", JStr "US"); ("c2", JInt 10)]]) = Ok out
    /\ (forall key name,
          In (key, name) [("c1", JStr "Country"); ("c2", JStr "AUM")] ->
          covers (map fst out) name = true)
    /\ (forall name values, In (name, values) out ->
          exists more, values = name :: more).
Proof.
  apply (pivot_first_value_is_name
           [("c1", JStr "Country"); ("c2", JStr "AUM")]
           [JDict [("c1", JStr "US"); ("c2", JInt 10)]]);
    reflexivity.
Defined.

(** C7, as stated, fails.  Both inputs have four rows.  In the first, two
    column ids share a name and the column gets six values; in the second,
    a row lacks a cell and the column gets two. *)
Lemma pivot_not_three_values :
  (3 < List.length rows_with_repeated_name)%nat
  /\ pivot (JList rows_with_repeated_name)
     = Ok [(JStr "Name",
            [JStr "Name"; JStr "Name"; JInt 1; JInt 2; JInt 3; JInt 4])]
  /\ (3 < List.length rows_with_missing_cell)%nat
  /\ pivot (JList rows_with_missing_cell)
     = Ok [(JStr "Country", [JStr "Country"; JStr "US"; JStr "FR"]);
           (JStr "AUM", [JStr "AUM"; JInt 4])].
Proof. cbn. repeat split; lia. Qed.

(** C7, amended.  For an input of more than three rows whose first three
    rows are dictionaries over the same column ids and whose first row
    holds pairwise distinct names, the pivot returns one column per name,
    in the order of the first row, and every column holds exactly three
    values: the cells of its column id in the first, second and third row,
    in that order. *)
Theorem pivot_three_values (d0 d1 d2 : dict) (r3 : json) (rest : list json) :
  unique_keys d0 = true -> unique_keys d1 = true -> unique_keys d2 = true ->
  same_keys d0 d1 = true -> same_keys d0 d2 = true ->
  distinct_keys (map snd d0) = true ->
  exists out,
    pivot (JList (JDict d0 :: JDict d1 :: JDict d2 :: r3 :: rest)) = Ok out
    /\ map fst out = map snd d0
    /\ forall name values, In (name, values) out ->
         exists key v0 v1 v2,
           values = [v0; v1; v2]
           /\ v0 = name
           /\ dict_get key d0 = Some v0
           /\ dict_get key d1 = Some v1
           /\ dict_get key d2 = Some v2.
Proof.
  intros Hu0 Hu1 Hu2 Hs1 Hs2 Hd.
  apply andb_prop in Hs1 as [Hs1 Hs1'], Hs2 as [Hs2 Hs2'].
  assert (Hh : forallb hashable (map snd d0) = true).
  { apply forallb_forall. intros. eauto using distinct_keys_hashable. }
  exists (pivoted d0 (JDict d0 :: JDict d1 :: JDict d2 :: r3 :: rest)).
  assert (Hkeys : column_keys (map snd d0) [] = map snd d0)
    by now apply (column_keys_of_distinct (map snd d0) []).
  split; [|split].
  - apply pivot_closed_form; [assumption|].
    unfold sampled. cbn [firstn forallb]. rewrite row_ok_self. cbn [row_ok].
    now rewrite Hs1', Hs2'.
  - unfold pivoted, tabulate. rewrite map_map, map_id. exact Hkeys.
  - intros name values Hin. unfold pivoted, tabulate in Hin.
    apply in_map_iff in Hin as (n & E & Hn). injection E as <- <-.
    rewrite Hkeys in Hn. apply in_map_iff in Hn as ([key n'] & E & Hin).
    cbn in E. subst n'.
    rewrite forallb_forall in Hs1, Hs2.
    destruct (dict_mem_get key d1) as [v1 Hv1]; [exact (Hs1 _ Hin)|].
    destruct (dict_mem_get key d2) as [v2 Hv2]; [exact (Hs2 _ Hin)|].
    pose proof (unique_keys_get _ _ _ Hu0 Hin) as Hv0.
    exists key, n, v1, v2. repeat split; try assumption.
    unfold sampled. cbn [firstn flat_map items_of].
    rewrite !(contributions_by_id d0 key n) by
      (assumption || (apply forallb_forall; intros [k v] H;
                      eauto using dict_mem_In)).
    rewrite (unique_keys_filter key n d0), (unique_keys_filter key v1 d1),
      (unique_keys_filter key v2 d2) by assumption.
    reflexivity.
Qed.

Lemma pivot_three_values_witness :
  exists out,
    pivot (JList [JDict [("c1", JStr "Country"); ("c2", JStr "AUM")];
                  JDict [("c1", JStr "US"); ("c2", JInt 2)];
                  JDict [("c2", JInt 4); ("c1", JStr "FR")];
                  JDict [("c1", JStr "DE"); ("c2", JInt 6)]]) = Ok out
    /\ map fst out = map snd [("c1", JStr "Country"); ("c2", JStr "AUM")]
    /\ forall name values, In (name, values) out ->
         exists key v0 v1 v2,
           values = [v0; v1; v2]
           /\ v0 = name
           /\ dict_get key [("c1", JStr "Country"); ("c2", JStr "AUM")]
              = Some v0
           /\ dict_get key [("c1", JStr "US"); ("c2", JInt 2)] = Some v1
           /\ dict_get key [("c2", JInt 4); ("c1", JStr "FR")] = Some v2.
Proof.
  apply (pivot_three_values
           [("c1", JStr "Country"); ("c2", JStr "AUM")]
           [("c1", JStr "US"); ("c2", JInt 2)]
           [("c2", JInt 4); ("c1", JStr "FR")]
           (JDict [("c1", JStr "DE"); ("c2", JInt 6)]) []);
    reflexivity.
Defined.

(* ===================================================================== *)
(** ** The error of the last step (tools.py) *)
(* ===================================================================== *)

Lemma last_item_snoc (earlier : list json) (x : json) :
  last_item (JList (earlier ++ [x])) = Ok x.
Proof.
  destruct earlier as [|y r]; [reflexivity|].
  cbn [app last_item]. now rewrite last_last.
Qed.

(** What the check of the last step adds, for every value of its [error]
    field. *)
Lemma change_response_data_checked py_repr response_data transformation_data
    altered earlier last_step err :
  getitem response_data "data" = Ok transformation_data ->
  pivot transformation_data = Ok altered ->
  getitem response_data "steps" = Ok (JList (earlier ++ [last_step])) ->
  getitem last_step "error" = Ok err ->
  change_response_data py_repr response_data true
  = Ok {| data := altered;
          steps := JList (earlier ++ [last_step]);
          error := if truthy err
                   then Some ("Error in the last step: " ++ py_str py_repr err)
                   else None |}.
Proof.
  intros Hdata Hpivot Hsteps Herr. unfold change_response_data.
  rewrite Hdata. cbn [bindE]. rewrite Hpivot. cbn [bindE].
  rewrite Hsteps. cbn [bindE py_len].
  replace (Z.of_nat (List.length (earlier ++ [last_step])) >? 0) with true
    by (symmetry; apply Z.gtb_lt; rewrite length_app; cbn; lia).
  rewrite last_item_snoc. cbn [bindE]. rewrite Herr. cbn [bindE].
  now destruct (truthy err).
Qed.

(** C8, as stated, fails.  The last step carries the error [""], which is
    not null; the check is a truth test, the empty string is false, and no
    [error] key is set. *)
Lemma empty_error_not_reported :
  getitem (JDict [("action", JStr "filter"); ("error", JStr "")]) "error"
  = Ok (JStr "")
  /\ JStr "" <> JNull
  /\ change_response_data (fun _ => "")
       (JDict [("data", JList []);
               ("steps", JList [JDict [("action", JStr "filter");
                                       ("error", JStr "")]])])
       true
     = Ok {| data := [];
             steps := JList [JDict [("action", JStr "filter");
                                    ("error", JStr "")]];
             error := None |}.
Proof. repeat split. discriminate. Qed.

(** C8, amended.  When the response is checked and the [error] field of
    its last step is true as a condition (not null, not empty, not zero,
    not false), the returned object has an [error] key holding
    ["Error in the last step: "] followed by that message; when the field
    is null, or any other value that is false as a condition, the returned
    object has no [error] key. *)
Theorem last_step_error_reported py_repr response_data transformation_data
    altered earlier last_step err :
  getitem response_data "data" = Ok transformation_data ->
  pivot transformation_data = Ok altered ->
  getitem response_data "steps" = Ok (JList (earlier ++ [last_step])) ->
  getitem last_step "error" = Ok err ->
  exists r,
    change_response_data py_repr response_data true = Ok r
    /\ data r = altered
    /\ steps r = JList (earlier ++ [last_step])
    /\ (truthy err = true ->
          error r = Some ("Error in the last step: " ++ py_str py_repr err))
    /\ (forall message, err = JStr message -> message <> "" ->
          error r = Some ("Error in the last step: " ++ message))
    /\ (truthy err = false -> error r = None)
    /\ (err = JNull -> error r = None).
Proof.
  intros Hdata Hpivot Hsteps Herr.
  eexists. split; [now apply (change_response_data_checked py_repr
                               response_data transformation_data altered
                               earlier last_step err)|].
  cbn [data steps error]. repeat split.
  - now intros ->.
  - intros message -> Hne. cbn.
    destruct (String.eqb_spec message ""); [contradiction | reflexivity].
  - now intros ->.
  - now intros ->.
Qed.

Lemma last_step_error_reported_witness :
  exists r,
    change_response_data (fun _ => "")
      (JDict [("data", JList []);
              ("steps", JList ([stored_step]
                               ++ [JDict [("action", JStr "filter");
                                          ("error", JStr "no such column")]]))])
      true = Ok r
    /\ data r = []
    /\ steps r = JList ([stored_step]
                        ++ [JDict [("action", JStr "filter");
                                   ("error", JStr "no such column")]])
    /\ (truthy (JStr "no such column") = true ->
          error r = Some ("Error in the last step: "
                          ++ py_str (fun _ => "") (JStr "no such column")))
    /\ (forall message, JStr "no such column" = JStr message ->
          message <> "" ->
          error r = Some ("Error in the last step: " ++ message))
    /\ (truthy (JStr "no such column") = false -> error r = None)
    /\ (JStr "no such column" = JNull -> error r = None).
Proof.
  apply (last_step_error_reported (fun _ => "")
           (JDict [("data", JList []);
                   ("steps", JList ([stored_step]
                                    ++ [JDict [("action", JStr "filter");
                                               ("error",
                                                JStr "no such column")]]))])
           (JList []) [] [stored_step]
           (JDict [("action", JStr "filter");
                   ("error", JStr "no such column")])
           (JStr "no such column"));
    reflexivity.
Defined.

(* ===================================================================== *)
(** ** Round trip through the model *)
(* ===================================================================== *)

Lemma find_field_get {A} (f : json -> A) (missing : A) k (d : dict) :
  find_field f missing k d
  = match dict_get k d with
    | Some v => f v
    | None => missing
    end.
Proof.
  unfold dict_get. induction d as [|[k' v] r IH]; cbn; [reflexivity|].
  now destruct (String.eqb k' k).
Qed.

Lemma find_field_missing {A} (f : json -> A) (missing : A) k (d : dict) :
  dict_mem k d = false -> find_field f missing k d = missing.
Proof.
  intros H. rewrite find_field_get. unfold dict_mem, assoc_mem in H.
  fold (dict_get k d) in H. now destruct (dict_get k d).
Qed.

Lemma mapE_map {A B C} (g : A -> B) (f : B -> Exc C) (h : A -> C) l :
  Forall (fun a => f (g a) = Ok (h a)) l ->
  mapE f (map g l) = Ok (map h l).
Proof.
  induction 1 as [|a l Ha _ IH]; [reflexivity|].
  cbn. rewrite Ha. cbn. fold (mapE f). now rewrite IH.
Qed.

Section RoundTrip.
Context {Cond Extra : Type}.
Variable parse_Cond : json -> Exc Cond.
Variable parse_Extra : dict -> Exc Extra.
Variable dump_Cond : Cond -> json.
Variable dump_Extra : Extra -> dict.

Local Abbreviation parse := (parse_Expression parse_Cond parse_Extra).
Local Abbreviation dump := (dump_Expression dump_Cond dump_Extra).
Local Abbreviation dump_member := (dump_member dump_Cond dump_Extra).

Lemma parse_Expression_dict (d : dict) :
  parse (JDict d)
  = (a <- find_field (parse_branch parse_Cond parse_Extra)
            (find_field (parse_branch parse_Cond parse_Extra)
               (Ok None) "and_" d) "and" d ;;
     o <- find_field (parse_branch parse_Cond parse_Extra)
            (find_field (parse_branch parse_Cond parse_Extra)
               (Ok None) "or_" d) "or" d ;;
     x <- parse_Extra d ;;
     init a o x).
Proof. reflexivity. Qed.

(** A dictionary without branch keys is no expression. *)
Lemma parse_Expression_leaf (d : dict) :
  forallb (fun kv => negb (branch_key (fst kv))) d = true ->
  is_ok (parse (JDict d)) = false.
Proof.
  intros H. rewrite parse_Expression_dict.
  assert (Hk : forall k, branch_key k = true -> dict_mem k d = false).
  { intros k Hk. unfold dict_mem, assoc_mem.
    induction d as [|[k' v] r IH]; [reflexivity|].
    cbn in *. apply andb_prop in H as [H1 H2].
    destruct (String.eqb_spec k' k) as [->|_]; [|auto].
    now rewrite Hk in H1. }
  rewrite !find_field_missing by (apply Hk; reflexivity).
  cbn. now destruct (parse_Extra d).
Qed.

(** The leaf class reads back what it dumps, and its dump has no branch
    key. *)
Hypothesis Cond_round_trip : forall c, parse_Cond (dump_Cond c) = Ok c.
Hypothesis Cond_leaf :
  forall c, exists d,
    dump_Cond c = JDict d
    /\ forallb (fun kv => negb (branch_key (fst kv))) d = true.

Lemma dump_Expression_eq a o x :
  dump (Build_Expression a o x)
  = JDict ([("and", dump_option (fun ms => JList (map dump_member ms)) a);
            ("or", dump_option (fun ms => JList (map dump_member ms)) o)]
           ++ dump_Extra x).
Proof. destruct a, o; reflexivity. Qed.

Lemma parse_member_leaf c :
  parse_member parse_Cond parse_Extra (dump_Cond c) = Ok (inr c).
Proof.
  unfold parse_member. destruct (Cond_leaf c) as (d & E & Hd).
  pose proof (parse_Expression_leaf d Hd) as Hleaf. rewrite <- E in Hleaf.
  destruct (parse (dump_Cond c)); [discriminate|].
  now rewrite Cond_round_trip.
Qed.

(** The members of a branch are read back one by one. *)
Lemma parse_members ms :
  Forall (fun m => match m with
                   | inl e => parse (dump e) = Ok e
                   | inr _ => True
                   end) ms ->
  mapE (parse_member parse_Cond parse_Extra) (map dump_member ms) = Ok ms.
Proof.
  intros H. rewrite <- (map_id ms) at 2. apply mapE_map.
  apply Forall_forall. intros [e|c] Hin.
  - rewrite Forall_forall in H. specialize (H _ Hin). cbn in H.
    unfold parse_member. cbn [dump_member]. now rewrite H.
  - apply parse_member_leaf.
Qed.
End RoundTrip.

(** *** The filter flavour *)

Lemma parse_dump_ComparisonValue (cv : ComparisonValue) :
  parse_ComparisonValue (dump_ComparisonValue cv) = Ok cv.
Proof. destruct cv as [[[s|n|b]|] [t|] [c|]]; reflexivity. Qed.

Lemma parse_dump_Operator (op : Operator) :
  parse_Operator (JStr (operator_literal op)) = Ok op.
Proof. destruct op; reflexivity. Qed.

Lemma parse_dump_Condition (c : Condition) :
  parse_Condition (dump_Condition c) = Ok c.
Proof.
  destruct c as [n op cv]. unfold dump_Condition, Condition_fields.
  cbn -[parse_Operator parse_ComparisonValue dump_ComparisonValue].
  now rewrite parse_dump_Operator, parse_dump_ComparisonValue.
Qed.

Lemma dump_Condition_leaf (c : Condition) :
  exists d,
    dump_Condition c = JDict d
    /\ forallb (fun kv => negb (branch_key (fst kv))) d = true.
Proof. eexists. split; reflexivity. Qed.

(** *** Comparison of wire objects *)











(** *** Wire objects *)








(** *** The replace flavour *)

Lemma parse_dump_ReplaceCondition (c : ReplaceCondition) :
  parse_ReplaceCondition (dump_ReplaceCondition c) = Ok c.
Proof.
  destruct c as [[n op cv] f].
  unfold dump_ReplaceCondition, Condition_fields, parse_ReplaceCondition,
    parse_Condition_fields.
  cbn -[parse_Operator parse_ComparisonValue dump_ComparisonValue].
  rewrite parse_dump_Operator, parse_dump_ComparisonValue.
  now destruct f as [[]|].
Qed.

Lemma dump_ReplaceCondition_leaf (c : ReplaceCondition) :
  exists d,
    dump_ReplaceCondition c = JDict d
    /\ forallb (fun kv => negb (branch_key (fst kv))) d = true.
Proof. eexists. split; reflexivity. Qed.

Lemma parse_result_value (x : ReplaceResultValue) (branches : dict) :
  forallb (fun kv => branch_key (fst kv)) branches = true ->
  find_field parse_ComparisonValue (Raise ValidationError) "result_value"
    (branches ++ [("result_value", dump_ComparisonValue x)])%list
  = Ok x.
Proof.
  induction branches as [|[k v] r IH]; intros H.
  - apply parse_dump_ComparisonValue.
  - cbn in H. apply andb_prop in H as [Hk H]. cbn [app find_field].
    destruct (String.eqb_spec k "result_value") as [->|_];
      [discriminate Hk | auto].
Qed.


(** The comparison tells apart the objects a round trip must not
    confuse: an expression and its loss, the two branches, a list and a
    shorter one, a leaf and a leaf with another operator. *)
Lemma same_logical_shape_separates :
  same_logical_shape wire_filter_expression (JDict [("or", JNull)]) = false
  /\ same_logical_shape (JDict [("and", JList [wire_country_is_us])])
       (JDict [("or", JList [wire_country_is_us])]) = false
  /\ same_logical_shape (JDict [("and", JList [wire_country_is_us])])
       (JDict [("and", JList [])]) = false
  /\ same_logical_shape (JDict [("and", JList [wire_country_is_us])])
       (JDict [("and",
                JList [JDict [("column_name", JStr "Country");
                              ("operator", JStr "not equal to");
                              ("comparison_value",
                               JDict [("input", JStr "US")])]])])
     = false.
Proof. repeat split; reflexivity. Qed.




(* ===================================================================== *)
(** ** Further properties: the requests a tool sends *)
(* ===================================================================== *)

Section RequestFacts.
Variable py_repr : json -> string.
Variable exn_str : exn -> string.
Variable backend : Backend.

(** The fetch sends one GET, whatever comes back. *)
Lemma get_transformation_data_log log :
  snd (get_transformation_data py_repr backend log) = (log ++ [GET])%list.
Proof.
  unfold get_transformation_data, try_except, bindT at 1, requests_get.
  destruct (on_get backend) as [response|e]; [|reflexivity].
  destruct (status_code response =? 200); [|reflexivity].
  unfold bindT at 1, lift.
  destruct (response_json response) as [response_data|e]; [|reflexivity].
  unfold bindT.
  destruct (change_response_data py_repr response_data false); reflexivity.
Qed.

(** The PUT of a step list sends one PUT with that list, whatever comes
    back. *)
Lemma put_steps_log transformation_steps failure log :
  snd (put_steps py_repr backend transformation_steps failure log)
  = (log ++ [PUT (JDict [("steps", transformation_steps)])])%list.
Proof.
  unfold put_steps, bindT at 1, requests_put.
  destruct (on_put backend _) as [response|e]; [|reflexivity].
  destruct (status_code response =? 201); [|reflexivity].
  unfold bindT at 1, lift.
  destruct (response_json response) as [response_data|e]; [|reflexivity].
  unfold bindT.
  destruct (change_response_data py_repr response_data true); reflexivity.
Qed.

(** A handler that returns or re-raises sends nothing. *)
Lemma try_except_log {A} (m : Tool A) (handler : exn -> Tool A) log :
  (forall e l, snd (handler e l) = l) ->
  snd (try_except m handler log) = snd (m log).
Proof.
  intros H. unfold try_except. destruct (m log) as [[a|e] l]; [reflexivity|].
  apply H.
Qed.

Lemma bindT_lift_log {A B} (x : Exc A) (k : A -> Tool B) log :
  snd (bindT (lift x) k log)
  = match x with
    | Ok a => snd (k a log)
    | Raise _ => log
    end.
Proof. unfold bindT, lift. now destruct x. Qed.

(** The body of a mutating tool once the step list to send is known. *)
Lemma after_fetch_log {A} (k : tool_result -> Tool A) log :
  snd (bindT (get_transformation_data py_repr backend) k log)
  = match fst (get_transformation_data py_repr backend log) with
    | Ok r => snd (k r (log ++ [GET])%list)
    | Raise _ => (log ++ [GET])%list
    end.
Proof.
  unfold bindT. pose proof (get_transformation_data_log log) as H.
  destruct (get_transformation_data py_repr backend log) as [[r|e] l];
    cbn in *; now subst.
Qed.

(** X1.  Every tool starts with one GET and sends at most one PUT after
    it: the fetch sends the GET alone, and each of the three mutating
    tools sends either the GET alone or the GET followed by one PUT. *)
Theorem tools_send_get_then_at_most_one_put log :
  snd (get_transformation_data py_repr backend log) = (log ++ [GET])%list
  /\ (forall n,
        snd (remove_last_step py_repr exn_str backend n log)
        = (log ++ [GET])%list
        \/ exists body,
             snd (remove_last_step py_repr exn_str backend n log)
             = (log ++ [GET; PUT body])%list)
  /\ (forall expression,
        snd (add_filter_action_tool py_repr exn_str backend expression log)
        = (log ++ [GET])%list
        \/ exists body,
             snd (add_filter_action_tool py_repr exn_str backend expression
                    log)
             = (log ++ [GET; PUT body])%list)
  /\ (forall expression column,
        snd (add_replace_action_tool py_repr backend expression column log)
        = (log ++ [GET])%list
        \/ exists body,
             snd (add_replace_action_tool py_repr backend expression column
                    log)
             = (log ++ [GET; PUT body])%list).
Proof.
  split; [apply get_transformation_data_log|]. split; [|split].
  - intros n. unfold remove_last_step.
    rewrite try_except_log by reflexivity. rewrite after_fetch_log.
    destruct (fst (get_transformation_data py_repr backend log)) as [r|e];
      [|now left].
    rewrite bindT_lift_log. destruct (steps_of r) as [s|e]; [|now left].
    rewrite bindT_lift_log. destruct (py_len s) as [len|e]; [|now left].
    rewrite bindT_lift_log.
    destruct (pop_times _ s) as [s'|e]; [|now left].
    right. eexists. rewrite put_steps_log, <- app_assoc. reflexivity.
  - intros expression. unfold add_filter_action_tool.
    rewrite try_except_log by reflexivity. rewrite bindT_lift_log.
    destruct (filter_step_top_level expression) as (k & v & -> & _).
    rewrite after_fetch_log.
    destruct (fst (get_transformation_data py_repr backend log)) as [r|e];
      [|now left].
    rewrite bindT_lift_log. destruct (steps_of r) as [s|e]; [|now left].
    rewrite bindT_lift_log. destruct (append s _) as [s'|e]; [|now left].
    right. eexists. rewrite put_steps_log, <- app_assoc. reflexivity.
  - intros expression column. unfold add_replace_action_tool.
    rewrite try_except_log by reflexivity. rewrite bindT_lift_log.
    rewrite replace_step_shape. rewrite after_fetch_log.
    destruct (fst (get_transformation_data py_repr backend log)) as [r|e];
      [|now left].
    rewrite bindT_lift_log. destruct (steps_of r) as [s|e]; [|now left].
    rewrite bindT_lift_log. destruct (append s _) as [s'|e]; [|now left].
    right. eexists. rewrite put_steps_log, <- app_assoc. reflexivity.
Qed.

(** X2.  When the fetch returns the step list [l], the filter tool sends
    one PUT whose step list is [l] followed by the new filter step: the
    steps already stored are sent back unchanged and in order. *)
Theorem add_filter_action_tool_appends expression log log' d l :
  get_transformation_data py_repr backend log = (Ok (Data d), log') ->
  steps d = JList l ->
  exists step,
    filter_step expression = Ok step
    /\ snd (add_filter_action_tool py_repr exn_str backend expression log)
       = (log' ++ [PUT (JDict [("steps", JList (l ++ [step]))])])%list.
Proof.
  intros Hget Hsteps.
  destruct (filter_step_top_level expression) as (k & v & Hstep & _).
  eexists. split; [exact Hstep|].
  unfold add_filter_action_tool. rewrite try_except_log by reflexivity.
  rewrite bindT_lift_log, Hstep. unfold bindT at 1. rewrite Hget.
  rewrite bindT_lift_log. cbn [steps_of]. rewrite Hsteps.
  rewrite bindT_lift_log. cbn [append]. apply put_steps_log.
Qed.

(** X3.  When the fetch returns the step list [l], the replace tool sends
    one PUT whose step list is [l] followed by the new replace step. *)
Theorem add_replace_action_tool_appends expression column log log' d l :
  get_transformation_data py_repr backend log = (Ok (Data d), log') ->
  steps d = JList l ->
  exists step,
    replace_step expression column = Ok step
    /\ snd (add_replace_action_tool py_repr backend expression column log)
       = (log' ++ [PUT (JDict [("steps", JList (l ++ [step]))])])%list.
Proof.
  intros Hget Hsteps.
  eexists. split; [apply replace_step_shape|].
  unfold add_replace_action_tool. rewrite try_except_log by reflexivity.
  rewrite bindT_lift_log, replace_step_shape. unfold bindT at 1. rewrite Hget.
  rewrite bindT_lift_log. cbn [steps_of]. rewrite Hsteps.
  rewrite bindT_lift_log. cbn [append]. apply put_steps_log.
Qed.

(** X4.  When the backend answers the GET with a status other than 200,
    no tool sends a PUT: the fetch returns its message, the remove and
    filter tools return a failure message (indexing the message raised
    [TypeError]), and the replace tool raises that [TypeError]. *)
Theorem failed_fetch_sends_no_put response log :
  on_get backend = Ok response ->
  status_code response <> 200 ->
  get_transformation_data py_repr backend log
  = (Ok (Message "Failed to get transformation data for some reason"),
     (log ++ [GET])%list)
  /\ (forall n,
        remove_last_step py_repr exn_str backend n log
        = (Ok (Message ("Failed to remove the last step: "
                        ++ exn_str TypeError)),
           (log ++ [GET])%list))
  /\ (forall expression,
        add_filter_action_tool py_repr exn_str backend expression log
        = (Ok (Message ("Failed to add data: " ++ exn_str TypeError)),
           (log ++ [GET])%list))
  /\ (forall expression column,
        add_replace_action_tool py_repr backend expression column log
        = (Raise TypeError, (log ++ [GET])%list)).
Proof.
  intros Hget Hstatus.
  assert (Hfetch : get_transformation_data py_repr backend log
                   = (Ok (Message
                            "Failed to get transformation data for some reason"),
                      (log ++ [GET])%list)).
  { unfold get_transformation_data, try_except, bindT, requests_get.
    rewrite Hget. apply Z.eqb_neq in Hstatus. now rewrite Hstatus. }
  split; [exact Hfetch|]. split; [|split].
  - intros n. unfold remove_last_step, try_except, bindT at 1.
    now rewrite Hfetch.
  - intros expression. unfold add_filter_action_tool, try_except, bindT at 1.
    destruct (filter_step_top_level expression) as (k & v & -> & _).
    unfold lift, bindT at 1. now rewrite Hfetch.
  - intros expression column.
    unfold add_replace_action_tool, try_except, bindT at 1.
    rewrite replace_step_shape. unfold lift, bindT at 1. now rewrite Hfetch.
Qed.

(** X5.  [remove_last_step] never sends back a shortened list: once the
    fetch has returned a step list, whatever count is asked for, the tool
    sends either no PUT at all (the count exceeds the length) or a PUT
    with the empty step list (every other count). *)
Theorem remove_last_step_all_or_nothing n log log' d l :
  get_transformation_data py_repr backend log = (Ok (Data d), log') ->
  steps d = JList l ->
  (n <= Z.of_nat (List.length l) ->
   snd (remove_last_step py_repr exn_str backend n log)
   = (log' ++ [PUT (JDict [("steps", JList [])])])%list)
  /\ (Z.of_nat (List.length l) < n ->
      snd (remove_last_step py_repr exn_str backend n log) = log').
Proof.
  intros Hget Hsteps. split; intros Hn.
  - rewrite (remove_last_step_after_fetch _ _ _ _ _ _ _ _ Hget Hsteps).
    rewrite Z.max_r, Nat2Z.id by lia.
    rewrite try_except_log by reflexivity.
    rewrite bindT_lift_log, pop_times_all. apply put_steps_log.
  - now rewrite (remove_last_step_beyond _ _ _ _ _ _ _ _ Hget Hsteps Hn).
Qed.

(** X6.  What the fetch returns on success never has an [error] key, even
    when the last step of the response carries an error: the response is
    converted without the check.  Its steps are those of the response and
    its data the pivot of the response's rows. *)
Theorem get_transformation_data_reports_no_error log log' d :
  get_transformation_data py_repr backend log = (Ok (Data d), log') ->
  error d = None
  /\ exists response response_data rows,
       on_get backend = Ok response
       /\ status_code response = 200
       /\ response_json response = Ok response_data
       /\ getitem response_data "steps" = Ok (steps d)
       /\ getitem response_data "data" = Ok rows
       /\ pivot rows = Ok (data d).
Proof.
  unfold get_transformation_data, try_except, bindT at 1, requests_get.
  destruct (on_get backend) as [response|e] eqn:Hget; [|discriminate].
  destruct (Z.eqb_spec (status_code response) 200) as [Hs|Hs];
    [|discriminate].
  unfold bindT at 1, lift.
  destruct (response_json response) as [response_data|e] eqn:Hjson;
    [|discriminate].
  unfold bindT, ret, change_response_data.
  destruct (getitem response_data "data") as [rows|e] eqn:Hdata;
    [|discriminate].
  cbn [bindE]. destruct (pivot rows) as [altered|e] eqn:Hpivot;
    [|discriminate].
  cbn [bindE].
  destruct (getitem response_data "steps") as [s|e] eqn:Hsteps;
    [|discriminate].
  cbn [bindE]. intros [= <- <-]. cbn [error steps data].
  split; [reflexivity|]. exists response, response_data, rows. auto 10.
Qed.

(** X7.  A failure message does not mean nothing was sent: when the fetch
    returned the step list [l] and the backend accepted the PUT with 201,
    but the response cannot be converted (a missing key, a last step
    without an [error] field), the filter tool returns its failure
    message after the PUT with the new step has gone out. *)
Theorem add_filter_action_tool_fails_after_put expression log log' d l
    step response response_data e :
  get_transformation_data py_repr backend log = (Ok (Data d), log') ->
  steps d = JList l ->
  filter_step expression = Ok step ->
  on_put backend (JDict [("steps", JList (l ++ [step]))]) = Ok response ->
  status_code response = 201 ->
  response_json response = Ok response_data ->
  change_response_data py_repr response_data true = Raise e ->
  add_filter_action_tool py_repr exn_str backend expression log
  = (Ok (Message ("Failed to add data: " ++ exn_str e)),
     (log' ++ [PUT (JDict [("steps", JList (l ++ [step]))])])%list).
Proof.
  intros Hget Hsteps Hstep Hput Hstatus Hjson Hchange.
  unfold add_filter_action_tool, try_except, bindT at 1, lift.
  rewrite Hstep. unfold bindT at 1. rewrite Hget.
  unfold bindT at 1. cbn [steps_of]. rewrite Hsteps.
  unfold bindT at 1. cbn [append].
  unfold put_steps, bindT at 1, requests_put. rewrite Hput, Hstatus.
  cbn [Z.eqb Pos.eqb]. unfold bindT at 1, lift. rewrite Hjson.
  unfold bindT. now rewrite Hchange.
Qed.
End RequestFacts.

Lemma add_filter_action_tool_appends_witness :
  exists step,
    filter_step nested_expression = Ok step
    /\ snd (add_filter_action_tool (fun _ => "") (fun _ => "")
              (echo_backend [stored_step]) nested_expression [])
       = ([GET] ++ [PUT (JDict [("steps", JList ([stored_step] ++ [step]))])])%list.
Proof.
  apply (add_filter_action_tool_appends (fun _ => "") (fun _ => "")
           (echo_backend [stored_step]) nested_expression [] [GET]
           {| data := []; steps := JList [stored_step]; error := None |}
           [stored_step]);
    reflexivity.
Defined.

Lemma add_replace_action_tool_appends_witness :
  exists step,
    replace_step sample_replace "AUM" = Ok step
    /\ snd (add_replace_action_tool (fun _ => "")
              (echo_backend [stored_step]) sample_replace "AUM" [])
       = ([GET] ++ [PUT (JDict [("steps", JList ([stored_step] ++ [step]))])])%list.
Proof.
  apply (add_replace_action_tool_appends (fun _ => "")
           (echo_backend [stored_step]) sample_replace "AUM" [] [GET]
           {| data := []; steps := JList [stored_step]; error := None |}
           [stored_step]);
    reflexivity.
Defined.

Lemma failed_fetch_sends_no_put_witness :
  get_transformation_data (fun _ => "") failing_backend []
  = (Ok (Message "Failed to get transformation data for some reason"),
     ([] ++ [GET])%list)
  /\ (forall n,
        remove_last_step (fun _ => "") (fun _ => "") failing_backend n []
        = (Ok (Message ("Failed to remove the last step: "
                        ++ (fun _ : exn => "") TypeError)),
           ([] ++ [GET])%list))
  /\ (forall expression,
        add_filter_action_tool (fun _ => "") (fun _ => "") failing_backend
          expression []
        = (Ok (Message ("Failed to add data: "
                        ++ (fun _ : exn => "") TypeError)),
           ([] ++ [GET])%list))
  /\ (forall expression column,
        add_replace_action_tool (fun _ => "") failing_backend expression
          column []
        = (Raise TypeError, ([] ++ [GET])%list)).
Proof.
  apply (failed_fetch_sends_no_put (fun _ => "") (fun _ => "") failing_backend
           {| status_code := 500; response_json := Raise (RequestError "") |}
           []).
  - reflexivity.
  - discriminate.
Defined.

Lemma remove_last_step_all_or_nothing_witness :
  (2 <= Z.of_nat (List.length [stored_step; stored_step; stored_step]) ->
   snd (remove_last_step (fun _ => "") (fun _ => "")
          (echo_backend [stored_step; stored_step; stored_step]) 2 [])
   = ([GET] ++ [PUT (JDict [("steps", JList [])])])%list)
  /\ (Z.of_nat (List.length [stored_step; stored_step; stored_step]) < 2 ->
      snd (remove_last_step (fun _ => "") (fun _ => "")
             (echo_backend [stored_step; stored_step; stored_step]) 2 [])
      = [GET]).
Proof.
  apply (remove_last_step_all_or_nothing (fun _ => "") (fun _ => "")
           (echo_backend [stored_step; stored_step; stored_step]) 2 [] [GET]
           {| data := [];
              steps := JList [stored_step; stored_step; stored_step];
              error := None |}
           [stored_step; stored_step; stored_step]);
    reflexivity.
Defined.

Lemma get_transformation_data_reports_no_error_witness :
  error {| data := []; steps := JList [stored_step; failed_step];
           error := None |} = None
  /\ exists response response_data rows,
       on_get erroring_backend = Ok response
       /\ status_code response = 200
       /\ response_json response = Ok response_data
       /\ getitem response_data "steps"
          = Ok (steps {| data := []; steps := JList [stored_step; failed_step];
                         error := None |})
       /\ getitem response_data "data" = Ok rows
       /\ pivot rows
          = Ok (data {| data := []; steps := JList [stored_step; failed_step];
                        error := None |}).
Proof.
  apply (get_transformation_data_reports_no_error (fun _ => "")
           erroring_backend [] [GET]).
  reflexivity.
Defined.

Lemma add_filter_action_tool_fails_after_put_witness :
  add_filter_action_tool (fun _ => "") (fun _ => "")
    (echo_backend [stored_step]) nested_expression []
  = (Ok (Message ("Failed to add data: "
                  ++ (fun _ : exn => "") (KeyError (JStr "error")))),
     ([GET] ++ [PUT (JDict [("steps",
                             JList ([stored_step] ++ [nested_step]))])])%list).
Proof.
  apply (add_filter_action_tool_fails_after_put (fun _ => "") (fun _ => "")
           (echo_backend [stored_step]) nested_expression [] [GET]
           {| data := []; steps := JList [stored_step]; error := None |}
           [stored_step] nested_step
           {| status_code := 201;
              response_json :=
                Ok (JDict [("data", JList []);
                           ("steps", JList ([stored_step] ++ [nested_step]))]) |}
           (JDict [("data", JList []);
                   ("steps", JList ([stored_step] ++ [nested_step]))])
           (KeyError (JStr "error")));
    reflexivity.
Defined.

(** X8.  A 200 response that lacks a key makes the fetch raise instead of
    returning: [KeyError] for [data] when the response has no [data] key,
    and [KeyError] for [steps] when it has rows to pivot but no [steps]
    key. *)
Theorem get_transformation_data_missing_key py_repr backend response
    (d : dict) log :
  on_get backend = Ok response ->
  status_code response = 200 ->
  response_json response = Ok (JDict d) ->
  (dict_mem "data" d = false ->
   get_transformation_data py_repr backend log
   = (Raise (KeyError (JStr "data")), (log ++ [GET])%list))
  /\ (forall rows altered,
        dict_get "data" d = Some rows -> pivot rows = Ok altered ->
        dict_mem "steps" d = false ->
        get_transformation_data py_repr backend log
        = (Raise (KeyError (JStr "steps")), (log ++ [GET])%list)).
Proof.
  intros Hget Hstatus Hjson.
  assert (Hnone : forall k, dict_mem k d = false -> dict_get k d = None).
  { intros k H. unfold dict_mem, assoc_mem in H. fold (dict_get k d) in H.
    now destruct (dict_get k d). }
  split.
  - intros Hdata.
    unfold get_transformation_data, try_except, bindT at 1, requests_get.
    rewrite Hget, Hstatus. cbn [Z.eqb Pos.eqb].
    unfold bindT at 1, lift. rewrite Hjson.
    unfold bindT, change_response_data. cbn [getitem].
    now rewrite (Hnone _ Hdata).
  - intros rows altered Hdata Hpivot Hsteps.
    unfold get_transformation_data, try_except, bindT at 1, requests_get.
    rewrite Hget, Hstatus. cbn [Z.eqb Pos.eqb].
    unfold bindT at 1, lift. rewrite Hjson.
    unfold bindT, change_response_data. cbn [getitem].
    rewrite Hdata. cbn [bindE]. rewrite Hpivot. cbn [bindE].
    now rewrite (Hnone _ Hsteps).
Qed.

Lemma get_transformation_data_missing_key_witness :
  get_transformation_data (fun _ => "")
    {| on_get := Ok {| status_code := 200;
                       response_json := Ok (JDict [("steps", JList [])]) |};
       on_put := fun _ => Raise (RequestError "") |} []
  = (Raise (KeyError (JStr "data")), ([] ++ [GET])%list)
  /\ get_transformation_data (fun _ => "")
       {| on_get := Ok {| status_code := 200;
                          response_json := Ok (JDict [("data", JList [])]) |};
          on_put := fun _ => Raise (RequestError "") |} []
     = (Raise (KeyError (JStr "steps")), ([] ++ [GET])%list).
Proof.
  split.
  - apply (get_transformation_data_missing_key (fun _ => "")
             {| on_get := Ok {| status_code := 200;
                                response_json :=
                                  Ok (JDict [("steps", JList [])]) |};
                on_put := fun _ => Raise (RequestError "") |}
             {| status_code := 200;
                response_json := Ok (JDict [("steps", JList [])]) |}
             [("steps", JList [])] []);
      reflexivity.
  - apply (proj2 (get_transformation_data_missing_key (fun _ => "")
                    {| on_get := Ok {| status_code := 200;
                                       response_json :=
                                         Ok (JDict [("data", JList [])]) |};
                       on_put := fun _ => Raise (RequestError "") |}
                    {| status_code := 200;
                       response_json := Ok (JDict [("data", JList [])]) |}
                    [("data", JList [])] [] eq_refl eq_refl eq_refl)
             (JList []) []);
      reflexivity.
Defined.

(* ===================================================================== *)
(** ** Further properties: the pivot *)
(* ===================================================================== *)

Lemma pivot_rows_firstn column_row rows index altered :
  0 <= index <= 2 ->
  pivot_rows column_row rows index altered
  = pivot_rows column_row (firstn (Z.to_nat (3 - index)) rows) index altered.
Proof.
  revert index altered. induction rows as [|row rest IH];
    intros index altered Hi.
  - now rewrite firstn_nil.
  - replace (Z.to_nat (3 - index)) with (S (Z.to_nat (3 - (index + 1))))
      by lia.
    cbn [firstn pivot_rows].
    destruct (py_items row) as [items|e]; [|reflexivity]. cbn [bindE].
    destruct (append_row column_row items altered) as [altered'|e];
      [|reflexivity].
    cbn [bindE].
    destruct (Z.gtb_spec (index + 1) 2) as [Hgt|Hle]; [reflexivity|].
    apply IH. lia.
Qed.

(** X9.  The pivot never looks past the third row: its outcome, a
    dictionary or an exception, is that of the list cut to its first
    three rows, whatever the later rows hold. *)
Theorem pivot_reads_three_rows (rows : list json) :
  pivot (JList rows) = pivot (JList (firstn 3 rows)).
Proof.
  destruct rows as [|row rest]; [reflexivity|].
  unfold pivot. cbn [firstn py_len bindE List.length first_item iterate].
  replace (negb (Z.of_nat (S (List.length rest)) =? 0)) with true
    by (symmetry; apply negb_true_iff, Z.eqb_neq; lia).
  replace (negb (Z.of_nat (S (List.length (firstn 2 rest))) =? 0)) with true
    by (symmetry; apply negb_true_iff, Z.eqb_neq; lia).
  destruct (py_values row) as [cols|e]; [|reflexivity]. cbn [bindE].
  destruct (init_columns cols []) as [altered|e]; [|reflexivity].
  cbn [bindE]. now rewrite pivot_rows_firstn by lia.
Qed.

(** X10.  The pivot of a non-empty list returns exactly when its first
    row is a dictionary with hashable values and the second and third
    rows, where present, are dictionaries that use column ids of the
    first row only; on every other input it raises. *)
Theorem pivot_returns_iff (row : json) (rest : list json) :
  is_ok (pivot (JList (row :: rest))) = true
  <-> exists column_row,
        row = JDict column_row
        /\ forallb hashable (map snd column_row) = true
        /\ forallb (row_ok column_row) (firstn 2 rest) = true.
Proof.
  split.
  - destruct (pivot (JList (row :: rest))) as [out|e] eqn:E; [|discriminate].
    intros _. exact (pivot_returns row rest out E).
  - intros (column_row & -> & Hh & Hok).
    rewrite pivot_closed_form; [reflexivity | assumption |].
    unfold sampled. cbn [firstn forallb]. now rewrite row_ok_self.
Qed.

(** X11.  Whenever the pivot returns, what it returns is a well-formed
    dictionary over the names of the first row: no two columns have equal
    names, every column is named by a value of the first row, and every
    value of the first row names a column (column ids with equal names
    share one). *)
Theorem pivot_columns_are_names (column_row : dict) (rest : list json) out :
  pivot (JList (JDict column_row :: rest)) = Ok out ->
  distinct_keys (map fst out) = true
  /\ (forall name, In name (map fst out) -> In name (map snd column_row))
  /\ (forall name, In name (map snd column_row) ->
        covers (map fst out) name = true).
Proof.
  intros H.
  destruct (pivot_returns _ _ _ H) as (d & [= <-] & Hh & Hok).
  rewrite pivot_closed_form in H;
    [|assumption
     |unfold sampled; cbn [firstn forallb]; now rewrite row_ok_self].
  injection H as <-.
  unfold pivoted, tabulate. rewrite map_map, map_id. cbn [fst].
  split; [now apply column_keys_distinct|]. split.
  - intros name Hin.
    destruct (column_keys_first _ _ _ Hin) as [[]|(_ & pre & post & -> & _)].
    apply in_or_app. right. now left.
  - intros name Hin. rewrite forallb_forall in Hh.
    apply column_keys_covers; auto.
Qed.

Lemma pivot_columns_are_names_witness :
  distinct_keys
    (map fst [(JStr "Name",
               [JStr "Name"; JStr "Name"; JInt 1; JInt 2; JInt 3; JInt 4])])
  = true
  /\ (forall name,
        In name
          (map fst [(JStr "Name",
                     [JStr "Name"; JStr "Name"; JInt 1; JInt 2; JInt 3;
                      JInt 4])]) ->
        In name (map snd [("c1", JStr "Name"); ("c2", JStr "Name")]))
  /\ (forall name,
        In name (map snd [("c1", JStr "Name"); ("c2", JStr "Name")]) ->
        covers
          (map fst [(JStr "Name",
                     [JStr "Name"; JStr "Name"; JInt 1; JInt 2; JInt 3;
                      JInt 4])]) name = true).
Proof.
  apply (pivot_columns_are_names
           [("c1", JStr "Name"); ("c2", JStr "Name")]
           [JDict [("c1", JInt 1); ("c2", JInt 2)];
            JDict [("c1", JInt 3); ("c2", JInt 4)];
            JDict [("c1", JInt 5); ("c2", JInt 6)]]).
  reflexivity.
Defined.

Lemma flat_map_ext_in {A B} (f g : A -> list B) (l : list A) :
  (forall a, In a l -> f a = g a) -> flat_map f l = flat_map g l.
Proof.
  induction l as [|a l IH]; intros H; [reflexivity|].
  cbn. rewrite (H a) by now left. rewrite IH; [reflexivity|].
  intros; apply H; now right.
Qed.

(** The entries of a dictionary under one key: the value it looks up. *)
Lemma filter_by_key key (d : dict) :
  unique_keys d = true ->
  map snd (filter (fun kv => String.eqb (fst kv) key) d)
  = match dict_get key d with
    | Some v => [v]
    | None => []
    end.
Proof.
  intros Hu. destruct (dict_get key d) as [v|] eqn:E.
  - now rewrite (unique_keys_filter key v d Hu E).
  - clear Hu. unfold dict_get in E.
    induction d as [|[k x] r IH]; [reflexivity|].
    cbn in *. destruct (String.eqb k key); [discriminate | auto].
Qed.

(** X12.  On a table (rows that are dictionaries over column ids of the
    first row, whose names are pairwise distinct) the pivot is the
    transpose of the first three rows: one column per entry of the first
    row, in its order, holding the cells of that column id row after row;
    a row without a cell for a column adds nothing to it. *)
Theorem pivot_transposes (column_row : dict) (rest : list json) :
  unique_keys column_row = true ->
  distinct_keys (map snd column_row) = true ->
  forallb (table_row column_row) (firstn 2 rest) = true ->
  pivot (JList (JDict column_row :: rest))
  = Ok (transposed column_row (JDict column_row :: rest)).
Proof.
  intros Hu Hd Hrows.
  assert (Hh : forallb hashable (map snd column_row) = true).
  { apply forallb_forall. intros. eauto using distinct_keys_hashable. }
  assert (Hall : forall row, In row (sampled (JDict column_row :: rest)) ->
                   table_row column_row row = true).
  { unfold sampled. cbn [firstn]. intros row [<-|Hin].
    - unfold table_row. now rewrite row_ok_self.
    - rewrite forallb_forall in Hrows. auto. }
  rewrite pivot_closed_form; [|assumption|].
  - f_equal. unfold pivoted, transposed, tabulate.
    rewrite (column_keys_of_distinct (map snd column_row) []) by assumption.
    cbn [app]. rewrite map_map. apply map_ext_in. intros [key name] Hin.
    cbn [fst snd]. f_equal. apply flat_map_ext_in. intros row Hrow.
    apply Hall in Hrow. unfold table_row in Hrow.
    apply andb_prop in Hrow as [Hok Huniq].
    destruct row as [| | | | |items]; try discriminate Hok.
    cbn [row_ok items_of] in *. unfold cell. cbn [items_of].
    rewrite (contributions_by_id column_row key name) by assumption.
    now apply filter_by_key.
  - apply forallb_forall. intros row Hrow. apply Hall in Hrow.
    unfold table_row in Hrow. now apply andb_prop in Hrow as [Hok _].
Qed.

Lemma pivot_transposes_witness :
  pivot (JList (JDict [("c1", JStr "Country"); ("c2", JStr "AUM")]
                :: [JDict [("c1", JStr "US")];
                    JDict [("c2", JInt 4); ("c1", JStr "FR")];
                    JDict [("c1", JStr "DE"); ("c2", JInt 6)]]))
  = Ok (transposed [("c1", JStr "Country"); ("c2", JStr "AUM")]
          (JDict [("c1", JStr "Country"); ("c2", JStr "AUM")]
           :: [JDict [("c1", JStr "US")];
               JDict [("c2", JInt 4); ("c1", JStr "FR")];
               JDict [("c1", JStr "DE"); ("c2", JInt 6)]])).
Proof.
  apply (pivot_transposes [("c1", JStr "Country"); ("c2", JStr "AUM")]
           [JDict [("c1", JStr "US")];
            JDict [("c2", JInt 4); ("c1", JStr "FR")];
            JDict [("c1", JStr "DE"); ("c2", JInt 6)]]);
    reflexivity.
Defined.

(* ===================================================================== *)
(** ** Further properties: the serializer and the model *)
(* ===================================================================== *)

(** X13.  When [and] is supplied, the serializer ignores [or]: the filter
    step of an expression with both branches is the step of the same
    expression without its [or] branch, and likewise for an entry of
    [when] in the replace step.  The members of the [or] branch are not
    sent. *)
Theorem serializers_ignore_or_next_to_and :
  (forall (a : list (Member Condition unit)) o,
     filter_step (Build_Expression (Some a) o tt)
     = filter_step (Build_Expression (Some a) None tt))
  /\ (forall els (a : list (Member ReplaceCondition ReplaceResultValue)) o rv
        before rest column,
        replace_step
          {| else_ := els;
             when := (before ++ Build_Expression (Some a) o rv :: rest)%list |}
          column
        = replace_step
            {| else_ := els;
               when := (before ++ Build_Expression (Some a) None rv
                          :: rest)%list |}
            column).
Proof.
  split.
  - intros a o. destruct o; reflexivity.
  - intros els a o rv before rest column. rewrite !replace_step_shape.
    cbn [when else_]. rewrite !map_app. reflexivity.
Qed.

Lemma has_and_or_ComparisonValue (cv : ComparisonValue) :
  has_and_or (dump_ComparisonValue cv) = false.
Proof. destruct cv as [[[s|n|b]|] [t|] [c|]]; reflexivity. Qed.

Lemma has_and_or_Condition (c : Condition) :
  has_and_or (dump_Condition c) = false.
Proof.
  destruct c as [n op cv]. unfold dump_Condition, Condition_fields.
  cbn -[dump_ComparisonValue]. now rewrite has_and_or_ComparisonValue.
Qed.

Lemma has_and_or_ReplaceCondition (c : ReplaceCondition) :
  has_and_or (dump_ReplaceCondition c) = false.
Proof.
  destruct c as [[n op cv] f].
  unfold dump_ReplaceCondition, Condition_fields.
  cbn -[dump_ComparisonValue]. rewrite has_and_or_ComparisonValue.
  now destruct f.
Qed.

(** The dump of a branch of leaves has no level with both keys. *)
Lemma has_and_or_leaves {Cond Extra} (dump_Cond : Cond -> json)
    (dump_Extra : Extra -> dict) (b : option (list (Member Cond Extra))) :
  (forall c, has_and_or (dump_Cond c) = false) ->
  match b with
  | None => true
  | Some ms => forallb (fun m => match m with
                                 | inl _ => false
                                 | inr _ => true
                                 end) ms
  end = true ->
  has_and_or (dump_option
                (fun ms => JList (map (dump_member dump_Cond dump_Extra) ms))
                b) = false.
Proof.
  intros Hc. destruct b as [ms|]; [|reflexivity]. cbn [dump_option has_and_or].
  induction ms as [|[e|c] ms IH]; cbn [forallb map existsb];
    [reflexivity | discriminate |].
  intros H. cbn [dump_member]. now rewrite Hc, IH.
Qed.

Lemma has_and_or_single k v : has_and_or (JDict [(k, v)]) = has_and_or v.
Proof.
  cbn [has_and_or existsb snd]. unfold dict_mem, assoc_mem. cbn [assoc_get].
  rewrite orb_false_r.
  destruct (String.eqb_spec k "and") as [->|_]; [reflexivity|].
  destruct (String.eqb k "or"); reflexivity.
Qed.

Lemma has_and_or_tagged e a :
  has_and_or (JDict [("expression", e); ("action", JStr a)]) = has_and_or e.
Proof. cbn. now rewrite !orb_false_r. Qed.

Lemma has_and_or_when_entry k b cv :
  has_and_or (JDict [(k, b); ("result_value", cv)])
  = has_and_or b || has_and_or cv.
Proof.
  cbn [has_and_or existsb snd]. unfold dict_mem, assoc_mem. cbn [assoc_get].
  rewrite orb_false_r.
  destruct (String.eqb_spec k "and") as [->|_]; [reflexivity|].
  destruct (String.eqb k "or"); reflexivity.
Qed.

Lemma has_and_or_replace_expression w v c :
  has_and_or (JDict [("when", w); ("else", v); ("replace_column", JStr c)])
  = has_and_or w || has_and_or v.
Proof. cbn. now rewrite !orb_false_r. Qed.

(** The filter step, in closed form: the kept branch is [and] unless it
    is null. *)
Lemma filter_step_shape (e : LogicalExpression) :
  filter_step e
  = Ok (JDict
          [("expression",
            JDict [match and_ e with
                   | Some _ =>
                       ("and",
                        dump_option
                          (fun ms =>
                             JList (map (dump_member dump_Condition
                                           (fun _ : unit => [])) ms))
                          (and_ e))
                   | None =>
                       ("or",
                        dump_option
                          (fun ms =>
                             JList (map (dump_member dump_Condition
                                           (fun _ : unit => [])) ms))
                          (or_ e))
                   end]);
           ("action", JStr "filter")]).
Proof. destruct e as [[a|] [o|] []]; reflexivity. Qed.

(** X14.  An expression without nested expressions is written with one
    branch key at every level: the filter step of a flat expression, and
    the replace step of an argument whose [when] entries are flat, hold
    no dictionary with both an [and] and an [or] key. *)
Theorem flat_steps_have_one_key_per_level :
  (forall e : LogicalExpression,
     flat e = true ->
     exists step, filter_step e = Ok step /\ has_and_or step = false)
  /\ (forall (x : ReplaceExpression) column,
        forallb flat (when x) = true ->
        exists step,
          replace_step x column = Ok step /\ has_and_or step = false).
Proof.
  split.
  - intros e H. eexists. split; [apply filter_step_shape|].
    unfold flat in H. apply andb_prop in H as [Ha Ho].
    rewrite has_and_or_tagged.
    destruct (and_ e) as [ms|] eqn:E; rewrite has_and_or_single.
    + now apply has_and_or_leaves; [apply has_and_or_Condition|].
    + now apply has_and_or_leaves; [apply has_and_or_Condition|].
  - intros [els wh] column H. cbn [when] in H.
    eexists. split; [apply replace_step_shape|].
    rewrite has_and_or_tagged, has_and_or_replace_expression.
    cbn [when else_]. rewrite has_and_or_ComparisonValue, orb_false_r.
    cbn [has_and_or].
    induction wh as [|e wh IH]; [reflexivity|].
    cbn [forallb] in H. apply andb_prop in H as [He H].
    cbn [map existsb]. rewrite IH by assumption. rewrite orb_false_r.
    unfold flat in He. apply andb_prop in He as [Ha Ho].
    unfold stripped.
    destruct (and_ e) as [ms|] eqn:E; rewrite has_and_or_when_entry,
      has_and_or_ComparisonValue, orb_false_r.
    + now apply has_and_or_leaves; [apply has_and_or_ReplaceCondition|].
    + now apply has_and_or_leaves; [apply has_and_or_ReplaceCondition|].
Qed.

Lemma flat_steps_have_one_key_per_level_witness :
  (exists step,
     filter_step (Build_Expression (Some [inr country_is_us]) None tt)
     = Ok step
     /\ has_and_or step = false)
  /\ (exists step,
        replace_step sample_replace "AUM" = Ok step
        /\ has_and_or step = false).
Proof.
  split.
  - apply (proj1 flat_steps_have_one_key_per_level). reflexivity.
  - apply (proj2 flat_steps_have_one_key_per_level). reflexivity.
Defined.

Section ValidRoundTrip.
Context {Cond Extra : Type}.
Variable parse_Cond : json -> Exc Cond.
Variable parse_Extra : dict -> Exc Extra.
Variable dump_Cond : Cond -> json.
Variable dump_Extra : Extra -> dict.

Hypothesis Cond_round_trip : forall c, parse_Cond (dump_Cond c) = Ok c.
Hypothesis Cond_leaf :
  forall c, exists d,
    dump_Cond c = JDict d
    /\ forallb (fun kv => negb (branch_key (fst kv))) d = true.
Hypothesis Extra_round_trip :
  forall x (branches : dict),
    forallb (fun kv => branch_key (fst kv)) branches = true ->
    parse_Extra (branches ++ dump_Extra x)%list = Ok x.

(** What [model_dump] writes for an expression that passes
    [validate_structure] at every node reads back as that expression,
    whichever branches it has. *)
Lemma parse_dump_valid (e : Expression Cond Extra) :
  valid_everywhere e = true ->
  parse_Expression parse_Cond parse_Extra
    (dump_Expression dump_Cond dump_Extra e) = Ok e.
Proof.
  induction e as [a o x Ha Ho] using Expression_ind. intros H.
  cbn [valid_everywhere] in H.
  apply andb_prop in H as [H Vo]. apply andb_prop in H as [Hinit Va].
  assert (Hbranch : forall b,
             branch_all
               (fun e => valid_everywhere e = true ->
                         parse_Expression parse_Cond parse_Extra
                           (dump_Expression dump_Cond dump_Extra e) = Ok e) b ->
             match b with
             | None => true
             | Some ms => forallb (fun m => match m with
                                            | inl e' => valid_everywhere e'
                                            | inr _ => true
                                            end) ms
             end = true ->
             parse_branch parse_Cond parse_Extra
               (dump_option
                  (fun ms => JList (map (dump_member dump_Cond dump_Extra) ms))
                  b) = Ok b).
  { intros [ms|] Hall Hvalid; [|reflexivity].
    cbn [dump_option parse_branch].
    rewrite (parse_members parse_Cond parse_Extra dump_Cond dump_Extra
               Cond_round_trip Cond_leaf); [reflexivity|].
    cbn [branch_all] in Hall. unfold members_all in Hall.
    rewrite Forall_forall in Hall |- *. rewrite forallb_forall in Hvalid.
    intros [e'|c] Hin; [|exact I]. exact (Hall _ Hin (Hvalid _ Hin)). }
  rewrite dump_Expression_eq, parse_Expression_dict.
  cbn [app find_field String.eqb Ascii.eqb Bool.eqb].
  rewrite (Hbranch a Ha Va). cbn [bindE].
  rewrite (Hbranch o Ho Vo). cbn [bindE].
  change (("and", ?da) :: ("or", ?dob) :: dump_Extra x)
    with ([("and", da); ("or", dob)] ++ dump_Extra x)%list.
  rewrite Extra_round_trip by reflexivity. cbn [bindE].
  apply init_ok. now apply negb_true_iff.
Qed.
End ValidRoundTrip.

(** X15.  Dumping and validating again is the identity on every
    expression that passes [validate_structure] at each of its nodes,
    whether a node has one branch or both, in the filter flavour and in
    the replace flavour. *)
Theorem model_dump_validates_back :
  (forall e : LogicalExpression,
     valid_everywhere e = true ->
     parse_LogicalExpression (dump_LogicalExpression e) = Ok e)
  /\ (forall e : ReplaceLogicalExpression,
        valid_everywhere e = true ->
        parse_ReplaceLogicalExpression (dump_ReplaceLogicalExpression e)
        = Ok e).
Proof.
  split; intros e.
  - apply (parse_dump_valid parse_Condition (fun _ => Ok tt) dump_Condition
             (fun _ => [])).
    + exact parse_dump_Condition.
    + exact dump_Condition_leaf.
    + now intros [] branches _.
  - apply (parse_dump_valid parse_ReplaceCondition _ dump_ReplaceCondition
             (fun rv => [("result_value", dump_ComparisonValue rv)])).
    + exact parse_dump_ReplaceCondition.
    + exact dump_ReplaceCondition_leaf.
    + exact parse_result_value.
Qed.

Lemma model_dump_validates_back_witness :
  parse_LogicalExpression
    (dump_LogicalExpression
       (Build_Expression (Some [inr country_is_us; inl nested_expression])
          (Some []) tt))
  = Ok (Build_Expression (Some [inr country_is_us; inl nested_expression])
          (Some []) tt)
  /\ parse_ReplaceLogicalExpression
       (dump_ReplaceLogicalExpression
          (Build_Expression (Some [inr currency_is_usd])
             (Some [inr currency_is_usd]) value_zero))
     = Ok (Build_Expression (Some [inr currency_is_usd])
             (Some [inr currency_is_usd]) value_zero).
Proof.
  split.
  - apply (proj1 model_dump_validates_back). reflexivity.
  - apply (proj2 model_dump_validates_back). reflexivity.
Defined.

Lemma mapE_inv {A B} (f : A -> Exc B) l bs :
  mapE f l = Ok bs -> Forall2 (fun a b => f a = Ok b) l bs.
Proof.
  revert bs. induction l as [|a l IH]; intros bs H.
  - injection H as <-. constructor.
  - cbn in H. fold (mapE f) in H.
    destruct (f a) as [b|] eqn:Ea; [|discriminate]. cbn in H.
    destruct (mapE f l) as [bs'|]; [|discriminate]. cbn in H.
    injection H as <-. constructor; auto.
Qed.

Section ValidAfterParse.
Context {Cond Extra : Type}.
Variable parse_Cond : json -> Exc Cond.
Variable parse_Extra : dict -> Exc Extra.

Local Abbreviation parse := (parse_Expression parse_Cond parse_Extra).

(** A branch field is absent, or read from a value of the dictionary. *)
Lemma find_branch_field {A} (f : json -> Exc (option A)) k k' (d : dict) a :
  find_field f (find_field f (Ok None) k' d) k d = Ok a ->
  a = None \/ exists v, In v (map snd d) /\ f v = Ok a.
Proof.
  rewrite !find_field_get.
  destruct (dict_get k d) as [v|] eqn:E.
  - intros H. right. exists v. split; [|assumption].
    apply dict_get_In in E. now apply (in_map snd) in E.
  - destruct (dict_get k' d) as [v|] eqn:E'.
    + intros H. right. exists v. split; [|assumption].
      apply dict_get_In in E'. now apply (in_map snd) in E'.
    + intros [= <-]. now left.
Qed.

(** X16.  Every expression the validation accepts passes
    [validate_structure] at each of its nodes: a wire object with a nested
    expression that has neither branch is rejected as a whole. *)
Theorem parse_Expression_valid (j : json) (e : Expression Cond Extra) :
  parse j = Ok e -> valid_everywhere e = true.
Proof.
  revert e.
  enough (H : (forall e, parse j = Ok e -> valid_everywhere e = true)
              /\ (forall l, j = JList l ->
                  Forall (fun m => forall e, parse m = Ok e ->
                                             valid_everywhere e = true) l))
    by apply H.
  induction j as [| | | |l IH|d IH] using json_ind;
    try solve [split; [discriminate | intros ? [=]]].
  - split; [discriminate|]. intros l' [= <-].
    apply Forall_impl with (2 := IH). now intros m [Hm _].
  - split; [|intros ? [=]].
    intros e. rewrite parse_Expression_dict.
    assert (Hb : forall b v,
               In v (map snd d) ->
               parse_branch parse_Cond parse_Extra v = Ok b ->
               match b with
               | None => true
               | Some ms => forallb (fun m => match m with
                                              | inl e' => valid_everywhere e'
                                              | inr _ => true
                                              end) ms
               end = true).
    { intros b v Hin Hv. apply in_map_iff in Hin as (kv & <- & Hin).
      rewrite Forall_forall in IH. destruct (IH _ Hin) as [_ Hlist].
      destruct (snd kv) as [| | | |l|]; try discriminate Hv.
      - now injection Hv as <-.
      - cbn [parse_branch] in Hv.
        destruct (mapE _ l) as [ms|] eqn:Ems; [|discriminate Hv].
        injection Hv as <-. apply mapE_inv in Ems.
        specialize (Hlist l eq_refl).
        apply forallb_forall. intros [e'|c] Hm; [|reflexivity].
        clear -Ems Hlist Hm. induction Ems as [|m x l ms Hx _ IHl];
          [destruct Hm|].
        destruct Hm as [->|Hm].
        + apply Forall_inv in Hlist. apply Hlist.
          unfold parse_member in Hx.
          destruct (parse_Expression parse_Cond parse_Extra m) as [e0|];
            [congruence|].
          destruct (parse_Cond m); discriminate.
        + apply IHl; [eapply Forall_inv_tail; eassumption | assumption]. }
    destruct (find_field _ _ "and" d) as [a|] eqn:Ea; [|discriminate].
    destruct (find_field _ _ "or" d) as [o|] eqn:Eo; [|discriminate].
    cbn [bindE]. destruct (parse_Extra d) as [x|]; [|discriminate].
    cbn [bindE]. unfold init, validate_structure. cbn [and_ or_ bindE].
    destruct (py_not a && py_not o) eqn:Hnot; [discriminate|].
    cbn [bindE]. intros [= <-]. cbn [valid_everywhere]. rewrite Hnot.
    cbn [negb andb].
    apply find_branch_field in Ea as [->|(v & Hin & Hv)],
        Eo as [->|(v' & Hin' & Hv')]; cbn [andb];
      repeat match goal with
             | H : parse_branch _ _ ?v = Ok ?b, Hi : In ?v _ |- _ =>
                 apply (Hb b v Hi) in H
             end;
      try reflexivity; try assumption.
    + now rewrite Hv.
    + now rewrite Hv, Hv'.
Qed.
End ValidAfterParse.

Lemma parse_Expression_valid_witness :
  valid_everywhere nested_expression = true.
Proof.
  apply (parse_Expression_valid parse_Condition (fun _ => Ok tt)
           (JDict [("and", JList [JDict [("or", JList [dump_Condition
                                                         country_is_us])]])])).
  reflexivity.
Defined.

(* ===================================================================== *)
(** ** Further properties: routing and the final answer (graph.py) *)
(* ===================================================================== *)

Lemma last_message_snoc (earlier : list BaseMessage) (m : BaseMessage) :
  last_message (earlier ++ [m]) = Ok m.
Proof.
  destruct earlier as [|m0 r]; [reflexivity|].
  cbn [app last_message]. now rewrite last_last.
Qed.

Lemma last_message_inv (history : list BaseMessage) m :
  last_message history = Ok m -> exists earlier, history = (earlier ++ [m])%list.
Proof.
  destruct history as [|m0 r]; [discriminate|].
  cbn [last_message]. intros [= <-].
  exists (removelast (m0 :: r)).
  replace (last r m0) with (last (m0 :: r) m0) by (destruct r; reflexivity).
  apply app_removelast_last. discriminate.
Qed.

(** What the [respond] route says about the history. *)
Lemma should_continue_respond_inv (history : list BaseMessage) :
  should_continue history = Ok "respond" ->
  exists earlier content call,
    history = (earlier ++ [AIMessage content [call]])%list
    /\ tc_name call = "StructuredOutputResponse".
Proof.
  unfold should_continue.
  destruct (last_message history) as [m|] eqn:E; [|discriminate].
  cbn [bindE]. destruct m as [content calls|content]; [|discriminate].
  cbn [tool_calls_of bindE].
  destruct calls as [|call [|call' calls]]; try discriminate.
  destruct (String.eqb_spec (tc_name call) "StructuredOutputResponse")
    as [Hname|_]; [|discriminate].
  intros _. apply last_message_inv in E as [earlier ->]. eauto.
Qed.

(** X18.  The route is decided by the last message alone.  It is
    [respond] exactly when that message is the model's and carries one
    tool call, named [StructuredOutputResponse]; a message of the model
    with no call or with several calls goes on to the tools, also when one
    of the calls is the answer call. *)
Theorem should_continue_respond_iff (history : list BaseMessage) :
  (should_continue history = Ok "respond"
   <-> exists earlier content call,
         history = (earlier ++ [AIMessage content [call]])%list
         /\ tc_name call = "StructuredOutputResponse")
  /\ (forall earlier content calls,
        history = (earlier ++ [AIMessage content calls])%list ->
        List.length calls <> 1%nat ->
        should_continue history = Ok "continue").
Proof.
  split; [split|].
  - apply should_continue_respond_inv.
  - intros (earlier & content & call & -> & Hname).
    unfold should_continue. rewrite last_message_snoc.
    cbn [bindE tool_calls_of]. rewrite Hname. reflexivity.
  - intros earlier content calls -> Hlen.
    unfold should_continue. rewrite last_message_snoc.
    cbn [bindE tool_calls_of].
    destruct calls as [|call [|call' calls]]; try reflexivity.
    now contradiction Hlen.
Qed.

(** X19.  On the [respond] route the final answer is always found: the
    last message has its one call, so [respond] raises neither
    [IndexError] nor [AttributeError]; it validates the arguments of that
    call and, when they hold a string under [answer], returns it as the
    final response together with one tool message carrying the id of the
    call. *)
Theorem respond_after_should_continue (history : list BaseMessage) :
  should_continue history = Ok "respond" ->
  exists earlier content call,
    history = (earlier ++ [AIMessage content [call]])%list
    /\ respond history
       = (response <- parse_StructuredOutputResponse (tc_args call) ;;
          Ok {| final_response := response;
                messages :=
                  [JDict [("type", JStr "tool");
                          ("content", JStr "Here is your structured response");
                          ("tool_call_id", tc_id call)]] |})
    /\ (forall d a,
          tc_args call = JDict d -> dict_get "answer" d = Some (JStr a) ->
          respond history
          = Ok {| final_response := {| answer := a |};
                  messages :=
                    [JDict [("type", JStr "tool");
                            ("content",
                             JStr "Here is your structured response");
                            ("tool_call_id", tc_id call)]] |}).
Proof.
  intros H.
  apply should_continue_respond_inv in H
    as (earlier & content & call & -> & Hname).
  exists earlier, content, call. split; [reflexivity|].
  assert (Hr : respond (earlier ++ [AIMessage content [call]])
               = (response <- parse_StructuredOutputResponse (tc_args call) ;;
                  Ok {| final_response := response;
                        messages :=
                          [JDict [("type", JStr "tool");
                                  ("content",
                                   JStr "Here is your structured response");
                                  ("tool_call_id", tc_id call)]] |})).
  { unfold respond. now rewrite last_message_snoc. }
  split; [exact Hr|].
  intros d a Hargs Hanswer. rewrite Hr, Hargs.
  cbn [parse_StructuredOutputResponse]. rewrite find_field_get, Hanswer.
  reflexivity.
Qed.

Lemma should_continue_respond_iff_witness :
  should_continue
    ([OtherMessage "remove two steps"]
     ++ [AIMessage "" [answer_call; fetch_call]])
  = Ok "continue".
Proof.
  apply (proj2 (should_continue_respond_iff
                  ([OtherMessage "remove two steps"]
                   ++ [AIMessage "" [answer_call; fetch_call]]))
           [OtherMessage "remove two steps"] "" [answer_call; fetch_call]).
  - reflexivity.
  - discriminate.
Defined.

Lemma respond_after_should_continue_witness :
  exists earlier content call,
    [OtherMessage "remove two steps"; AIMessage "" [answer_call]]
    = (earlier ++ [AIMessage content [call]])%list
    /\ respond [OtherMessage "remove two steps"; AIMessage "" [answer_call]]
       = (response <- parse_StructuredOutputResponse (tc_args call) ;;
          Ok {| final_response := response;
                messages :=
                  [JDict [("type", JStr "tool");
                          ("content", JStr "Here is your structured response");
                          ("tool_call_id", tc_id call)]] |})
    /\ (forall d a,
          tc_args call = JDict d -> dict_get "answer" d = Some (JStr a) ->
          respond [OtherMessage "remove two steps"; AIMessage "" [answer_call]]
          = Ok {| final_response := {| answer := a |};
                  messages :=
                    [JDict [("type", JStr "tool");
                            ("content",
                             JStr "Here is your structured response");
                            ("tool_call_id", tc_id call)]] |}).
Proof.
  apply (respond_after_should_continue
           [OtherMessage "remove two steps"; AIMessage "" [answer_call]]).
  reflexivity.
Defined.
